(** * btc_dashboard: the technical-signal pipeline

    A shallow embedding of the signal logic of [btc_dashboard.py]: the
    "Technical Signals" and "Trading Advice" sections of [main] and the
    indicator columns that [calculate_technicals] appends to the frame.

    Numbers are IEEE 754 binary64 values, as the [numpy.float64] scalars that
    [data[...].iloc[-1]] yields: the Standard Library's executable
    specification of binary floating point ([SpecFloat]) at precision 53 and
    maximal exponent 1024.  An undefined (missing) value is NaN, as in
    pandas. *)

From Stdlib Require Import ZArith List String Bool Lia Setoid.
From Stdlib Require Import SpecFloat.
From Stdlib Require Import Ascii DecimalString.
Import ListNotations.

Open Scope string_scope.
Open Scope Z_scope.

(** ** binary64 arithmetic *)

Module F64.

Definition prec : Z := 53.
Definition emax : Z := 1024.

Definition float : Type := spec_float.

Definition nan : float := S754_nan.

(** An integer literal: the nearest binary64 value (exact below 2^53). *)
Definition of_Z (z : Z) : float := binary_normalize prec emax z 0 false.

Definition add : float -> float -> float := SFadd prec emax.
Definition sub : float -> float -> float := SFsub prec emax.
Definition mul : float -> float -> float := SFmul prec emax.
Definition div : float -> float -> float := SFdiv prec emax.
Definition opp : float -> float := SFopp.

(** Python's [a < b], [a > b] and [a == b] on floats: every comparison that
    involves NaN is false, and the two zeros are equal. *)
Definition ltb (a b : float) : bool := SFltb a b.
Definition gtb (a b : float) : bool := SFltb b a.
Definition eqb (a b : float) : bool := SFeqb a b.

Definition is_nan (a : float) : bool :=
  match a with S754_nan => true | _ => false end.

Definition is_zero (a : float) : bool :=
  match a with S754_zero _ => true | _ => false end.

Definition is_infinity (a : float) : bool :=
  match a with S754_infinity _ => true | _ => false end.

(** A representable binary64 value: a canonical mantissa in the exponent
    range (every value that float arithmetic produces is one). *)
Definition valid (a : float) : bool := valid_binary prec emax a.

(** The decimal literals of the source, correctly rounded. *)
Definition f70 : float := of_Z 70.
Definition f30 : float := of_Z 30.
Definition f1_0 : float := of_Z 1.
Definition f0_8 : float := S754_finite false 7205759403792794 (-53).
Definition f0_2 : float := S754_finite false 7205759403792794 (-55).

End F64.

Declare Scope f64_scope.
Delimit Scope f64_scope with f64.
Infix "+" := F64.add : f64_scope.
Infix "-" := F64.sub : f64_scope.
Infix "*" := F64.mul : f64_scope.
Infix "/" := F64.div : f64_scope.
Infix "<?" := F64.ltb : f64_scope.
Infix ">?" := F64.gtb : f64_scope.
Infix "=?" := F64.eqb : f64_scope.

Definition float : Type := F64.float.

(** ** Rounding, in closed form

    The quantities through which the rounding of [SpecFloat]'s
    [binary_round] is described when its order properties are proved. *)

Module Rounding.

Definition b2z (b : bool) : Z := if b then 1 else 0.

(** A shift record read as one number: the mantissa followed by the round
    bit and the sticky bit. *)
Definition code (mrs : shr_record) : Z :=
  4 * shr_m mrs + 2 * b2z (shr_r mrs) + b2z (shr_s mrs).

Definition exact (m : Z) : shr_record := Build_shr_record m false false.

Definition rounded (mrs : shr_record) : Z :=
  round_nearest_even (shr_m mrs) (loc_of_shr_record mrs).

(** [mz] shifted right by [n] bits, with the bits shifted out recorded. *)
Definition shifted (mz : Z) (n : Z) : shr_record :=
  Nat.iter (Z.to_nat n) shr_1 (exact mz).

(** What [binary_round] computes for the mantissa [p] at exponent [e]: the
    rounded mantissa and its exponent, after the carry of a mantissa rounded
    up to [2 ^ prec]. *)
Definition round_pair (prec emax : Z) (p : positive) (e : Z) : Z * Z :=
  let E := fexp prec emax (Zpos (digits2_pos p) + e) in
  let ez := Z.min e E in
  let M1 := rounded (shifted (Zpos p * 2 ^ (e - ez)) (E - ez)) in
  if M1 <? 2 ^ prec then (M1, E) else (2 ^ (prec - 1), E + 1).

Definition finish (prec emax : Z) (sx : bool) (me : Z * Z) : spec_float :=
  match fst me with
  | Z0 => S754_zero sx
  | Zpos m =>
      if snd me <=? emax - prec then S754_finite sx m (snd me)
      else S754_infinity sx
  | Zneg _ => S754_nan
  end.

(** Lexicographic order of two (mantissa, exponent) pairs in canonical
    form. *)
Definition pair_le (a b : Z * Z) : Prop :=
  0 <= fst a /\ 0 <= fst b
  /\ (fst a = 0
      \/ (snd a < snd b /\ 0 < fst b)
      \/ (snd a = snd b /\ fst a <= fst b)).

End Rounding.

(** ** The classifier: [main], "Technical Signals" and "Trading Advice" *)

(** The last row of the frame, [data[col].iloc[-1]] for each column that
    [main] reads.  [BBL_20_2_0] and [BBU_20_2_0] are the columns
    ['BBL_20_2.0'] and ['BBU_20_2.0']. *)
Record LatestRow : Type := mkLatest {
  Close : float;
  RSI_14 : float;
  MACD_12_26_9 : float;
  MACDs_12_26_9 : float;
  SMA_20 : float;
  BBL_20_2_0 : float;
  BBU_20_2_0 : float
}.

Module Dashboard.

Local Open Scope f64_scope.

(** *** The four metric columns *)

(** [cols[0]]: the RSI status. *)
Definition rsi_status (rsi : float) : string :=
  if rsi >? F64.f70 then "Overbought 🚨"
  else if rsi <? F64.f30 then "Oversold 🚨"
  else "Neutral".

(** [cols[1]]: the MACD status. *)
Definition macd_status (macd signal : float) : string :=
  if macd >? signal then "Bullish ↗️" else "Bearish ↘️".

(** [cols[2]]: the divisor and the quotient of [bb_percent].  The operands
    are [numpy.float64] scalars, so a zero divisor raises nothing: the
    quotient is computed by the IEEE rules. *)
Definition bb_width (data : LatestRow) : float :=
  BBU_20_2_0 data - BBL_20_2_0 data.

Definition bb_percent (data : LatestRow) : float :=
  (Close data - BBL_20_2_0 data) / bb_width data.

Definition bb_status (bb_percent : float) : string :=
  if bb_percent >? F64.f0_8 then "High Volatility"
  else if bb_percent <? F64.f0_2 then "Low Volatility"
  else "Normal".

(** [cols[3]]: the trend direction. *)
Definition trend (data : LatestRow) : string :=
  if Close data >? SMA_20 data then "Bullish ↗️" else "Bearish ↘️".

(** *** The advice list *)

Definition advice_overbought : string :=
  "Consider taking profits - RSI indicates overbought condition".
Definition advice_oversold : string :=
  "Potential buying opportunity - RSI indicates oversold condition".
Definition advice_macd_bullish : string :=
  "Strong bullish momentum - MACD above signal line".
Definition advice_macd_bearish : string :=
  "Bearish momentum building - MACD below signal line".
Definition advice_above_upper : string :=
  "Price above upper Bollinger Band - possible mean reversion".
Definition advice_below_lower : string :=
  "Price below lower Bollinger Band - potential bounce opportunity".
Definition advice_fallback : string :=
  "No strong signals detected - maintain current positions".

(** All the lines the advice section can write. *)
Definition lines : list string :=
  [advice_overbought; advice_oversold; advice_macd_bullish;
   advice_macd_bearish; advice_above_upper; advice_below_lower;
   advice_fallback].

(** Whether a list of lines holds the given line. *)
Definition has_line (line : string) (advice : list string) : bool :=
  existsb (String.eqb line) advice.

(** [advice.append(line)]. *)
Definition append (advice : list string) (line : string) : list string :=
  advice ++ [line].

(** Each [if]/[elif] of the advice section takes the list built so far and
    returns the list after it. *)
Definition rsi_rule (rsi : float) (advice : list string) : list string :=
  if rsi >? F64.f70 then append advice advice_overbought
  else if rsi <? F64.f30 then append advice advice_oversold
  else advice.

Definition macd_rule (macd signal : float) (advice : list string)
  : list string :=
  if macd >? signal + F64.f1_0 then append advice advice_macd_bullish
  else if macd <? signal - F64.f1_0 then append advice advice_macd_bearish
  else advice.

Definition bollinger_rule (data : LatestRow) (advice : list string)
  : list string :=
  if Close data >? BBU_20_2_0 data then append advice advice_above_upper
  else if Close data <? BBL_20_2_0 data then append advice advice_below_lower
  else advice.

(** [if not advice: advice.append(...)]. *)
Definition fallback_rule (advice : list string) : list string :=
  match advice with
  | [] => append advice advice_fallback
  | _ :: _ => advice
  end.

(** The list after rules 1 to 3, before the fallback test. *)
Definition rule_lines (data : LatestRow) : list string :=
  let advice := [] in
  let advice := rsi_rule (RSI_14 data) advice in
  let advice := macd_rule (MACD_12_26_9 data) (MACDs_12_26_9 data) advice in
  bollinger_rule data advice.

Definition trading_advice (data : LatestRow) : list string :=
  fallback_rule (rule_lines data).

(** What the two sections hand to the page: the four statuses, the
    Bollinger quotient, and the advice lines in the order written. *)
Record Signals : Type := mkSignals {
  rsiStatus : string;
  macdStatus : string;
  bollingerPercent : float;
  bollingerStatus : string;
  trendDirection : string;
  advice : list string
}.

Definition classify (data : LatestRow) : Signals :=
  {| rsiStatus := rsi_status (RSI_14 data);
     macdStatus := macd_status (MACD_12_26_9 data) (MACDs_12_26_9 data);
     bollingerPercent := bb_percent data;
     bollingerStatus := bb_status (bb_percent data);
     trendDirection := trend data;
     advice := trading_advice data |}.

(** *** The same sections as a run

    One constructor per branch the interpreter can take, with the tests
    that lead to it; the advice list is the state threaded through. *)










End Dashboard.

(** ** The indicator engine: [calculate_technicals]

    [calculate_technicals] asks the technical-analysis library for four
    groups of columns ([df.ta.rsi], [df.ta.macd], [df.ta.sma],
    [df.ta.bbands]).  The library is not part of the repository, so the
    series, the frame and each indicator are modelled from the
    specification's sections 3 and 4.1. *)

Module Engine.

Local Open Scope f64_scope.






(** *** Helpers shared by the indicators *)

Definition of_nat (n : nat) : float := F64.of_Z (Z.of_nat n).











(** *** SMA(20) *)


(** *** RSI(14) *)







(** *** MACD(12, 26, 9) *)



(** *** Bollinger Bands(20, 2) *)




(** *** The frame *)






End Engine.

(** ** From the frame to the signals *)

Module Pipeline.

(** [series.iloc[-1]]: the last element, which an empty series lacks. *)
Definition iloc_last {A : Type} (xs : list A) : option A :=
  match rev xs with
  | [] => None
  | x :: _ => Some x
  end.





End Pipeline.

(** ** Python values and the page's fetchers

    The helper functions of the page, [get_live_price], [get_fear_greed],
    [get_social_metrics] and [get_historical_data], and the part of [main]
    that shows what they return.  A helper's input is the outcome of its
    request: the decoded body, or the exception the request or the decoding
    raised.  The [st.cache_data] decorators are not modelled: each
    definition is the body that runs on a cache miss. *)

Module Py.

(** The exceptions these functions can meet; all are [Exception]s. *)
Inductive exn : Type :=
| KeyError
| IndexError
| TypeError
| ValueError
| OverflowError
| RequestException
| JSONDecodeError.

(** A decoded JSON body: the Python value [json()] returns.  A dict keeps
    its keys in insertion order, and a lookup finds the first entry of a
    key. *)
#[local] Unset Elimination Schemes.
Inductive value : Type :=
| PNone
| PBool (b : bool)
| PInt (z : Z)
| PFloat (f : float)
| PStr (s : string)
| PList (items : list value)
| PDict (entries : list (string * value)).
#[local] Set Elimination Schemes.

(** A computation that returns or raises. *)
Definition result (A : Type) : Type := (exn + A)%type.

Definition raise {A : Type} (e : exn) : result A := inl e.
Definition ret {A : Type} (a : A) : result A := inr a.

Definition bind {A B : Type} (m : result A) (k : A -> result B) : result B :=
  match m with
  | inl e => inl e
  | inr a => k a
  end.

Fixpoint lookup (key : string) (entries : list (string * value))
  : option value :=
  match entries with
  | [] => None
  | (k, v) :: rest => if String.eqb key k then Some v else lookup key rest
  end.

(** [x[key]] for a string key: only a dict can be subscripted by one. *)
Definition getitem (x : value) (key : string) : result value :=
  match x with
  | PDict entries =>
      match lookup key entries with
      | Some v => ret v
      | None => raise KeyError
      end
  | _ => raise TypeError
  end.

(** [x[0]]: the first item of a list, the first character of a string; a
    decoded dict has string keys only, so it has no key [0]. *)
Definition getitem_0 (x : value) : result value :=
  match x with
  | PList (v :: _) => ret v
  | PList [] => raise IndexError
  | PStr (String c _) => ret (PStr (String c EmptyString))
  | PStr EmptyString => raise IndexError
  | PDict _ => raise KeyError
  | _ => raise TypeError
  end.

(** The values [format(v, ',')] accepts: [bool], [int] and [float]. *)
Definition is_number (v : value) : bool :=
  match v with
  | PBool _ | PInt _ | PFloat _ => true
  | _ => false
  end.

(** [str(n)] for an integer. *)
Definition decimal (z : Z) : string := NilZero.string_of_int (Z.to_int z).

(** [format(n, ',')] for an integer: the decimal digits in groups of three
    from the right, after the sign. *)
Fixpoint group3 (digits : list ascii) : list ascii :=
  match digits with
  | a :: b :: c :: ((_ :: _) as rest) =>
      a :: b :: c :: ","%char :: group3 rest
  | _ => digits
  end.

Definition int_comma (z : Z) : string :=
  let digits := list_ascii_of_string (decimal (Z.abs z)) in
  let grouped := string_of_list_ascii (rev (group3 (rev digits))) in
  if (z <? 0)%Z then String "-"%char grouped else grouped.

(** What the page writes, as far as the helpers and their callers decide
    it.  The text of an error banner is [prefix] followed by [str(e)]. *)
Inductive ui_event : Type :=
| StError (prefix : string) (e : exn)
| StWarning (text : string)
| StMarkdown (lines : list string).

End Py.

Notation "x <- m ;; k" := (Py.bind m (fun x => k))
  (at level 61, m at next level, right associativity).

Module Page.

Import Py.
Local Open Scope f64_scope.

Section Builtins.

(** The builtins the page applies to decoded values, left open: [int(v)],
    which may raise, [str(v)] for a value that is not a string, and
    [format(f, ',')] for a float. *)
Variable py_int : value -> result Z.
Variable py_str : value -> string.
Variable float_comma : float -> string.

(** [f"{v}"]: a string is written as it is, any other value through
    [str]. *)
Definition format_plain (v : value) : string :=
  match v with
  | PStr s => s
  | _ => py_str v
  end.

(** [f"{v:,}"]: numbers only; a string is a [ValueError], and [None], a
    list or a dict a [TypeError]. *)
Definition format_comma (v : value) : result string :=
  match v with
  | PInt z => ret (int_comma z)
  | PBool b => ret (int_comma (if b then 1 else 0)%Z)
  | PFloat f => ret (float_comma f)
  | PStr _ => raise ValueError
  | PNone | PList _ | PDict _ => raise TypeError
  end.

(** *** [get_fear_greed] *)

(** The [try] block: [data = res.json()['data'][0]], then the pair
    [int(data['value']), data['value_classification']], left to right. *)
Definition fear_greed_try (response : result value) : result (Z * value) :=
  body <- response ;;
  items <- getitem body "data" ;;
  data <- getitem_0 items ;;
  raw <- getitem data "value" ;;
  v <- py_int raw ;;
  classification <- getitem data "value_classification" ;;
  ret (v, classification).

(** The whole function: the pair, or on any exception an error banner and
    [(None, "N/A")]. *)
Definition get_fear_greed (response : result value)
  : (option Z * value) * list ui_event :=
  match fear_greed_try response with
  | inr (v, classification) => ((Some v, classification), [])
  | inl e => ((None, PStr "N/A"), [StError "Fear & Greed Error: " e])
  end.

(** [fg_value or 'N/A'], formatted: [None] and [0] are both falsy. *)
Definition value_or_na (fg_value : option Z) : string :=
  match fg_value with
  | Some z => if (z =? 0)%Z then "N/A" else decimal z
  | None => "N/A"
  end.

(** The value of the "Fear & Greed Index" metric,
    [f"{fg_value or 'N/A'} ({fg_text})"]. *)
Definition fear_greed_metric (fg : option Z * value) : string :=
  (value_or_na (fst fg) ++ " (" ++ format_plain (snd fg) ++ ")")%string.

(** *** [get_social_metrics] *)

(** The [try] block: both bodies, then the four entries of the returned
    dict in the order written. *)
Definition social_try (cg_response alt_response : result value)
  : result (list (string * value)) :=
  cg_data <- cg_response ;;
  alt_data <- alt_response ;;
  community1 <- getitem cg_data "community_data" ;;
  twitter <- getitem community1 "twitter_followers" ;;
  community2 <- getitem cg_data "community_data" ;;
  reddit <- getitem community2 "reddit_subscribers" ;;
  community3 <- getitem cg_data "community_data" ;;
  active <- getitem community3 "active_addresses" ;;
  alt <- getitem alt_data "data" ;;
  score <- getitem alt "social_score" ;;
  ret [("twitter_followers", twitter);
       ("reddit_subscribers", reddit);
       ("active_addresses", active);
       ("social_score", score)].

Definition get_social_metrics (cg_response alt_response : result value)
  : option (list (string * value)) * list ui_event :=
  match social_try cg_response alt_response with
  | inr social_data => (Some social_data, [])
  | inl e => (None, [StError "Social Metrics Error: " e])
  end.

(** The text of the four lines of the metric box (the markup around them
    is constant): three counts with thousands separators, the score as it
    is. *)
Definition social_lines (social_data : list (string * value))
  : result (list string) :=
  twitter <- getitem (PDict social_data) "twitter_followers" ;;
  twitter <- format_comma twitter ;;
  reddit <- getitem (PDict social_data) "reddit_subscribers" ;;
  reddit <- format_comma reddit ;;
  active <- getitem (PDict social_data) "active_addresses" ;;
  active <- format_comma active ;;
  score <- getitem (PDict social_data) "social_score" ;;
  ret [("🐦 Twitter Followers: " ++ twitter)%string;
       ("🎮 Reddit Subscribers: " ++ reddit)%string;
       ("📈 Active Addresses: " ++ active)%string;
       ("📱 Social Score: " ++ format_plain score ++ "/100")%string].

(** [col3] of [main]: [if social_data:] is true for a dict with an entry,
    false for an empty dict and for [None].  Formatting the box is outside
    any [try], so an exception there leaves [main]. *)
Definition social_column (social_data : option (list (string * value)))
  : result ui_event :=
  match social_data with
  | Some (entry :: entries) =>
      lines <- social_lines (entry :: entries) ;;
      ret (StMarkdown lines)
  | Some [] | None => ret (StWarning "Social metrics unavailable")
  end.

End Builtins.

(** *** [get_live_price] *)

(** The [Close] column of the day's history: the last close and its
    difference from the first.  An empty history has no last row. *)
Definition get_live_price (closes : list float) : result (float * float) :=
  match Pipeline.iloc_last closes, closes with
  | Some last, first :: _ => ret (last, last - first)
  | _, _ => raise IndexError
  end.

(** A price as the market data has it: a representable number, neither
    NaN nor an infinity. *)
Definition is_price (c : float) : bool :=
  F64.valid c
  && match c with
     | S754_zero _ | S754_finite _ _ _ => true
     | _ => false
     end.

(** [(change/price)*100], the percentage in the price metric's delta. *)
Definition change_percent (price change : float) : float :=
  (change / price) * F64.of_Z 100.

(** *** The timeframe selection and [get_historical_data] *)

Definition timeframes : list string := ["15m"; "1h"; "4h"; "1d"; "1wk"].

Definition timeframe_map : list (string * Z) :=
  [("15m", 3); ("1h", 7); ("4h", 14); ("1d", 30); ("1wk", 52)]%Z.

Fixpoint days_of (timeframe : string) (table : list (string * Z))
  : result Z :=
  match table with
  | [] => raise KeyError
  | (k, days) :: rest =>
      if String.eqb timeframe k then ret days else days_of timeframe rest
  end.

(** The arguments of [ticker.history] for a timeframe:
    [interval=timeframe] and [period=f"{days}d"] with
    [days = timeframe_map[timeframe]]. *)
Definition history_request (timeframe : string) : result (string * string) :=
  days <- days_of timeframe timeframe_map ;;
  ret (timeframe, (decimal days ++ "d")%string).

End Page.

(** ** Sample inputs *)

Module Samples.

(** Both bands at 50000 and the close one dollar above them. *)
Definition collapsed_row : LatestRow :=
  {| Close := F64.of_Z 50001;
     RSI_14 := F64.of_Z 50;
     MACD_12_26_9 := F64.of_Z 0;
     MACDs_12_26_9 := F64.of_Z 0;
     SMA_20 := F64.of_Z 50000;
     BBL_20_2_0 := F64.of_Z 50000;
     BBU_20_2_0 := F64.of_Z 50000 |}.

(** RSI above 70, MACD four above its signal, close above the upper band. *)
Definition all_fire_row : LatestRow :=
  {| Close := F64.of_Z 110;
     RSI_14 := F64.of_Z 80;
     MACD_12_26_9 := F64.of_Z 5;
     MACDs_12_26_9 := F64.of_Z 1;
     SMA_20 := F64.of_Z 95;
     BBL_20_2_0 := F64.of_Z 90;
     BBU_20_2_0 := F64.of_Z 100 |}.

(** A row whose RSI is undefined. *)
Definition undefined_rsi_row : LatestRow :=
  {| Close := F64.of_Z 100;
     RSI_14 := F64.nan;
     MACD_12_26_9 := F64.of_Z 2;
     MACDs_12_26_9 := F64.of_Z 2;
     SMA_20 := F64.of_Z 99;
     BBL_20_2_0 := F64.of_Z 90;
     BBU_20_2_0 := F64.of_Z 110 |}.

(** MACD half a point above its signal: inside the advice margin. *)
Definition narrow_macd : float := F64.div (F64.of_Z 5) (F64.of_Z 2).
Definition narrow_signal : float := F64.of_Z 2.



End Samples.

(** Further sample inputs. *)

Module ExtraSamples.

(** A row in which no indicator is defined yet. *)
Definition undefined_row : LatestRow :=
  {| Close := F64.of_Z 100;
     RSI_14 := F64.nan;
     MACD_12_26_9 := F64.nan;
     MACDs_12_26_9 := F64.nan;
     SMA_20 := F64.nan;
     BBL_20_2_0 := F64.nan;
     BBU_20_2_0 := F64.nan |}.

(** The close at 85 under bands from 90 to 110. *)
Definition below_band_row : LatestRow :=
  {| Close := F64.of_Z 85;
     RSI_14 := F64.of_Z 50;
     MACD_12_26_9 := F64.of_Z 0;
     MACDs_12_26_9 := F64.of_Z 0;
     SMA_20 := F64.of_Z 100;
     BBL_20_2_0 := F64.of_Z 90;
     BBU_20_2_0 := F64.of_Z 110 |}.

(** A day that opens at 100 and ends at 97. *)
Definition falling_day : list float :=
  [F64.of_Z 100; F64.of_Z 102; F64.of_Z 99; F64.of_Z 97].

End ExtraSamples.

(** * Properties *)

(** ** Rounding to nearest is monotone

    [SFadd] and [SFsub] round an exact integer sum at a common exponent.
    The lemmas below show that this rounding preserves the order, so that
    [s + c] is never below [s - c] for a positive [c]. *)

Module RoundingFacts.

Import Rounding.
Local Open Scope Z_scope.

(** [iter_pos] is iteration a number of times. *)
Lemma iter_pos_nat {A} (f : A -> A) (p : positive) (x : A) :
  iter_pos f p x = Nat.iter (Pos.to_nat p) f x.
Proof.
  revert x. induction p as [p IH|p IH|]; intros x.
  - rewrite Pos2Nat.inj_xI. cbn [iter_pos]. rewrite !IH.
    rewrite <- Nat.iter_succ_r, <- Nat.iter_add. f_equal. lia.
  - rewrite Pos2Nat.inj_xO. cbn [iter_pos]. rewrite !IH.
    rewrite <- Nat.iter_add. f_equal. lia.
  - reflexivity.
Qed.

(** One shift halves a non-negative mantissa. *)
Lemma shr_1_m (mrs : shr_record) :
  0 <= shr_m mrs -> shr_m (shr_1 mrs) = shr_m mrs / 2.
Proof.
  destruct mrs as [m r s]. simpl. intros Hm.
  destruct m as [|[p|p|]|p]; simpl; try reflexivity; try lia.
  - rewrite Pos2Z.inj_xI. apply Z.div_unique with 1; lia.
  - rewrite Pos2Z.inj_xO. apply Z.div_unique with 0; lia.
Qed.

(** One shift on the code: the round and sticky bits merge into the
    sticky bit. *)
Lemma shr_1_code (mrs : shr_record) :
  0 <= shr_m mrs ->
  code (shr_1 mrs) = 2 * shr_m mrs + b2z (shr_r mrs || shr_s mrs).
Proof.
  destruct mrs as [m r s]. unfold code. simpl. intros Hm.
  destruct m as [|[p|p|]|p]; simpl shr_m; simpl shr_r; simpl shr_s;
    try lia; destruct r, s; simpl; lia.
Qed.

(** Shifting preserves the order of the codes. *)
Lemma shr_1_mono (a b : shr_record) :
  0 <= shr_m a -> 0 <= shr_m b ->
  code a <= code b -> code (shr_1 a) <= code (shr_1 b).
Proof.
  intros Ha Hb Hab. rewrite !shr_1_code by assumption.
  unfold code in Hab.
  destruct a as [ma ra sa], b as [mb rb sb]; cbn [shr_m shr_r shr_s] in *.
  destruct ra, sa, rb, sb; cbn [b2z orb] in *; lia.
Qed.

Lemma shr_iter_m (k : nat) (mrs : shr_record) :
  0 <= shr_m mrs ->
  shr_m (Nat.iter k shr_1 mrs) = shr_m mrs / 2 ^ Z.of_nat k.
Proof.
  intros Hm. induction k as [|k IH].
  - simpl. now rewrite Z.div_1_r.
  - assert (Hp : 0 < 2 ^ Z.of_nat k) by (apply Z.pow_pos_nonneg; lia).
    rewrite Nat2Z.inj_succ, Z.pow_succ_r by lia.
    change (Nat.iter (S k) shr_1 mrs) with (shr_1 (Nat.iter k shr_1 mrs)).
    rewrite shr_1_m.
    + rewrite IH. rewrite Z.div_div by lia. f_equal. lia.
    + rewrite IH. apply Z.div_pos; lia.
Qed.

Lemma shr_iter_mono (k : nat) (a b : shr_record) :
  0 <= shr_m a -> 0 <= shr_m b ->
  code a <= code b -> code (Nat.iter k shr_1 a) <= code (Nat.iter k shr_1 b).
Proof.
  intros Ha Hb Hab. induction k as [|k IH]; [exact Hab|].
  assert (Hp : 0 < 2 ^ Z.of_nat k) by (apply Z.pow_pos_nonneg; lia).
  change (code (shr_1 (Nat.iter k shr_1 a))
          <= code (shr_1 (Nat.iter k shr_1 b))).
  apply shr_1_mono; [| |exact IH].
  - rewrite shr_iter_m by assumption. apply Z.div_pos; lia.
  - rewrite shr_iter_m by assumption. apply Z.div_pos; lia.
Qed.

(** Rounding to nearest even keeps the mantissa or adds one. *)
Lemma rounded_bounds (mrs : shr_record) :
  shr_m mrs <= rounded mrs <= shr_m mrs + 1.
Proof.
  destruct mrs as [m [|] [|]]; unfold rounded; simpl; try lia.
  destruct (Z.even m); lia.
Qed.

(** Rounding to nearest even preserves the order of the codes. *)
Lemma rounded_mono (a b : shr_record) :
  code a <= code b -> rounded a <= rounded b.
Proof.
  intros H.
  destruct (Z.eq_dec (shr_m a) (shr_m b)) as [E|E].
  - destruct a as [ma ra sa], b as [mb rb sb]. unfold code, rounded in *.
    cbn [shr_m shr_r shr_s] in *. subst mb.
    destruct ra, sa, rb, sb;
      cbn [b2z loc_of_shr_record round_nearest_even] in *;
      try lia; destruct (Z.even ma); lia.
  - pose proof (rounded_bounds a). pose proof (rounded_bounds b).
    assert (shr_m a < shr_m b); [|lia].
    destruct a as [ma ra sa], b as [mb rb sb]. unfold code in *.
    cbn [shr_m shr_r shr_s] in *.
    destruct ra, sa, rb, sb; cbn [b2z] in *; lia.
Qed.

Lemma digits2_pos_size (p : positive) : digits2_pos p = Pos.size p.
Proof. induction p; simpl; congruence. Qed.

(** A mantissa of [d] digits lies in [[2^(d-1), 2^d)], and conversely. *)
Lemma digits_bounds (p : positive) :
  2 ^ (Zpos (digits2_pos p) - 1) <= Zpos p < 2 ^ Zpos (digits2_pos p).
Proof.
  rewrite digits2_pos_size. split.
  - pose proof (Pos.size_le p) as H.
    apply Pos2Z.pos_le_pos in H. rewrite Pos2Z.inj_pow in H.
    change (Z.pos p~0) with (2 * Z.pos p) in H.
    replace (Zpos (Pos.size p)) with (Z.succ (Zpos (Pos.size p) - 1)) in H
      by lia.
    rewrite Z.pow_succ_r in H by lia. lia.
  - pose proof (Pos.size_gt p) as H.
    apply Pos2Z.pos_lt_pos in H. now rewrite Pos2Z.inj_pow in H.
Qed.

Lemma digits_unique (p : positive) (d : Z) :
  2 ^ (d - 1) <= Zpos p < 2 ^ d -> Zpos (digits2_pos p) = d.
Proof.
  intros [Hlo Hhi]. pose proof (digits_bounds p) as [Hl Hh].
  assert (Hd : 0 < d).
  { destruct (Z.lt_ge_cases 0 d) as [|Hle]; [assumption|].
    exfalso. destruct (Z.eq_dec d 0) as [->|].
    - simpl in Hhi. lia.
    - rewrite Z.pow_neg_r in Hhi by lia. lia. }
  destruct (Z.lt_trichotomy (Zpos (digits2_pos p)) d) as [H|[H|H]];
    [exfalso | assumption | exfalso].
  - assert (2 ^ Zpos (digits2_pos p) <= 2 ^ (d - 1))
      by (apply Z.pow_le_mono_r; lia).
    lia.
  - assert (2 ^ d <= 2 ^ (Zpos (digits2_pos p) - 1))
      by (apply Z.pow_le_mono_r; lia).
    lia.
Qed.

Lemma digits_mono (p q : positive) :
  (p <= q)%positive -> Zpos (digits2_pos p) <= Zpos (digits2_pos q).
Proof.
  intros Hpq. pose proof (digits_bounds p) as [Hl _].
  pose proof (digits_bounds q) as [_ Hh].
  destruct (Z.le_gt_cases (Zpos (digits2_pos p)) (Zpos (digits2_pos q)))
    as [|Hgt]; [assumption|exfalso].
  assert (2 ^ Zpos (digits2_pos q) <= 2 ^ (Zpos (digits2_pos p) - 1))
    by (apply Z.pow_le_mono_r; lia).
  assert (Zpos p <= Zpos q) by (apply Pos2Z.pos_le_pos; assumption).
  lia.
Qed.

Lemma iter_xO (p d : positive) :
  Zpos (Pos.iter xO p d) = Zpos p * 2 ^ Zpos d.
Proof.
  revert p. induction d as [|d IH] using Pos.peano_ind; intros p.
  - simpl. lia.
  - rewrite Pos.iter_succ, Pos2Z.inj_xO, IH, Pos2Z.inj_succ.
    rewrite Z.pow_succ_r by lia. lia.
Qed.

(** [shl_align] scales the mantissa to the smaller of the two exponents. *)
Lemma shl_align_spec (p : positive) (e e' : Z) :
  Zpos (fst (shl_align p e e')) = Zpos p * 2 ^ (e - Z.min e e')
  /\ snd (shl_align p e e') = Z.min e e'.
Proof.
  unfold shl_align. destruct (e' - e) as [|d|d] eqn:E; simpl.
  - replace (Z.min e e') with e by lia. rewrite Z.sub_diag. simpl. lia.
  - replace (Z.min e e') with e by lia. rewrite Z.sub_diag. simpl. lia.
  - replace (Z.min e e') with e' by lia. rewrite iter_xO.
    split; [|reflexivity].
    replace (e - e') with (Zpos d) by lia. reflexivity.
Qed.

Lemma shr_spec (mrs : shr_record) (e n : Z) :
  shr mrs e n = (Nat.iter (Z.to_nat n) shr_1 mrs, e + Z.max 0 n).
Proof.
  unfold shr. destruct n as [|p|p]; cbn [Z.to_nat Nat.iter nat_rect];
    rewrite ?iter_pos_nat; f_equal; lia.
Qed.

Section Round.

Variables prec emax : Z.
Hypothesis Hprec : 0 < prec.

Lemma fexp_ge_emin (e : Z) : emin prec emax <= fexp prec emax e.
Proof. unfold fexp. lia. Qed.

Lemma fexp_mono (a b : Z) : a <= b -> fexp prec emax a <= fexp prec emax b.
Proof. unfold fexp. lia. Qed.

Lemma shifted_m (mz n : Z) :
  0 <= mz -> shr_m (shifted mz n) = mz / 2 ^ Z.max 0 n.
Proof.
  intros H. unfold shifted. rewrite shr_iter_m by exact H.
  simpl. f_equal. f_equal. lia.
Qed.

(** The mantissa before rounding has at most [prec] digits. *)
Lemma shifted_lt (p : positive) (e : Z) :
  let E := fexp prec emax (Zpos (digits2_pos p) + e) in
  let ez := Z.min e E in
  0 <= shr_m (shifted (Zpos p * 2 ^ (e - ez)) (E - ez)) < 2 ^ prec.
Proof.
  intros E ez.
  assert (Hez : 0 <= e - ez) by lia.
  assert (Hn : 0 <= E - ez) by lia.
  pose proof (digits_bounds p) as [_ Hhi].
  assert (Hpow : 0 < 2 ^ (e - ez)) by (apply Z.pow_pos_nonneg; lia).
  assert (Hpn : 0 < 2 ^ (E - ez)) by (apply Z.pow_pos_nonneg; lia).
  rewrite shifted_m by lia. rewrite Z.max_r by lia. split.
  - apply Z.div_pos; lia.
  - apply Z.div_lt_upper_bound; [lia|].
    assert (HE : Zpos (digits2_pos p) + e - prec <= E)
      by (unfold E, fexp; lia).
    apply Z.lt_le_trans with (2 ^ Zpos (digits2_pos p) * 2 ^ (e - ez)).
    + apply Z.mul_lt_mono_pos_r; assumption.
    + rewrite <- !Z.pow_add_r by lia.
      apply Z.pow_le_mono_r; lia.
Qed.

Lemma round_pair_M1_bounds (p : positive) (e : Z) :
  let E := fexp prec emax (Zpos (digits2_pos p) + e) in
  let ez := Z.min e E in
  0 <= rounded (shifted (Zpos p * 2 ^ (e - ez)) (E - ez)) <= 2 ^ prec.
Proof.
  intros E ez. pose proof (shifted_lt p e) as H. cbv zeta in H.
  fold E in H. fold ez in H.
  pose proof (rounded_bounds (shifted (Zpos p * 2 ^ (e - ez)) (E - ez))).
  lia.
Qed.

(** [binary_round] in closed form. *)
Lemma binary_round_spec (sx : bool) (p : positive) (e : Z) :
  binary_round prec emax sx p e
  = finish prec emax sx (round_pair prec emax p e).
Proof.
  unfold binary_round, round_pair. cbv zeta.
  set (E := fexp prec emax (Zpos (digits2_pos p) + e)).
  set (ez := Z.min e E).
  destruct (shl_align_spec p e E) as [Hmz Hez].
  destruct (shl_align p e E) as [mz ez'] eqn:Hal. cbn [fst snd] in Hmz, Hez.
  fold ez in Hmz, Hez. subst ez'.
  pose proof (round_pair_M1_bounds p e) as HM1. cbv zeta in HM1.
  fold E in HM1. fold ez in HM1. rewrite <- Hmz in HM1. rewrite <- Hmz.
  unfold binary_round_aux, shr_fexp.
  assert (Hdig : Zdigits2 (Zpos mz) + ez = Zpos (digits2_pos p) + e).
  { change (Zdigits2 (Zpos mz)) with (Zpos (digits2_pos mz)).
    rewrite (digits_unique mz (Zpos (digits2_pos p) + (e - ez))); [lia|].
    pose proof (digits_bounds p) as [Hl Hh].
    assert (0 <= e - ez) by lia.
    assert (Hpow : 0 < 2 ^ (e - ez)) by (apply Z.pow_pos_nonneg; lia).
    rewrite Hmz. split.
    - replace (Zpos (digits2_pos p) + (e - ez) - 1)
        with ((Zpos (digits2_pos p) - 1) + (e - ez)) by lia.
      rewrite Z.pow_add_r by lia. apply Z.mul_le_mono_nonneg_r; lia.
    - rewrite Z.pow_add_r by lia. apply Z.mul_lt_mono_pos_r; lia. }
  rewrite Hdig. fold E. rewrite shr_spec.
  change (shr_record_of_loc (Zpos mz) loc_Exact) with (exact (Zpos mz)).
  fold (shifted (Zpos mz) (E - ez)).
  replace (ez + Z.max 0 (E - ez)) with E by lia.
  fold (rounded (shifted (Zpos mz) (E - ez))).
  set (M1 := rounded (shifted (Zpos mz) (E - ez))) in *.
  rewrite shr_spec.
  change (shr_record_of_loc M1 loc_Exact) with (exact M1).
  pose proof (fexp_ge_emin (Zpos (digits2_pos p) + e)) as HEmin.
  fold E in HEmin.
  destruct (Z.ltb_spec M1 (2 ^ prec)) as [Hlt|Hge].
  - (* no carry *)
    assert (Hn2 : fexp prec emax (Zdigits2 M1 + E) - E <= 0).
    { destruct M1 as [|m1|m1] eqn:EM1; [| |lia].
      - simpl. unfold fexp in *. lia.
      - simpl Zdigits2. pose proof (digits_bounds m1) as [Hl _].
        assert (Zpos (digits2_pos m1) <= prec).
        { destruct (Z.le_gt_cases (Zpos (digits2_pos m1)) prec); [assumption|].
          assert (2 ^ prec <= 2 ^ (Zpos (digits2_pos m1) - 1))
            by (apply Z.pow_le_mono_r; lia).
          lia. }
        unfold fexp in *. lia. }
    replace (Z.to_nat (fexp prec emax (Zdigits2 M1 + E) - E)) with 0%nat by lia.
    rewrite Z.max_l by lia. cbn [Nat.iter nat_rect]. unfold finish.
    cbn [fst snd exact shr_m]. rewrite Z.add_0_r. reflexivity.
  - (* carry *)
    assert (HM : M1 = 2 ^ prec) by lia.
    assert (Hn2 : fexp prec emax (Zdigits2 M1 + E) - E = 1).
    { assert (Hpos : 0 < 2 ^ prec) by (apply Z.pow_pos_nonneg; lia).
      destruct M1 as [|m1|m1] eqn:EM1; [lia| |lia].
      simpl Zdigits2.
      rewrite (digits_unique m1 (prec + 1)).
      - unfold fexp in *. lia.
      - rewrite HM. replace (prec + 1 - 1) with prec by lia.
        rewrite Z.pow_add_r by lia. lia. }
    rewrite Hn2.
    change (Nat.iter (Z.to_nat 1) shr_1 (exact M1)) with (shr_1 (exact M1)).
    unfold finish. cbn [fst snd].
    rewrite shr_1_m by (cbn [exact shr_m]; lia). cbn [exact shr_m].
    replace (M1 / 2) with (2 ^ (prec - 1)).
    + replace (E + Z.max 0 1) with (E + 1) by lia. reflexivity.
    + rewrite HM. replace prec with (Z.succ (prec - 1)) at 2 by lia.
      rewrite Z.pow_succ_r by lia. symmetry.
      rewrite Z.mul_comm. apply Z.div_mul. lia.
Qed.


(** The closed form is monotone in the mantissa. *)
Lemma round_pair_mono (p q : positive) (e : Z) :
  (p <= q)%positive ->
  pair_le (round_pair prec emax p e) (round_pair prec emax q e).
Proof.
  intros Hpq.
  assert (Hz : Zpos p <= Zpos q) by (apply Pos2Z.pos_le_pos; assumption).
  pose proof (digits_mono p q Hpq) as Hd.
  pose proof (round_pair_M1_bounds p e) as HMp.
  pose proof (round_pair_M1_bounds q e) as HMq.
  pose proof (shifted_lt q e) as HSq.
  pose proof
    (rounded_bounds
       (shifted
          (Zpos q
           * 2 ^ (e - Z.min e (fexp prec emax (Zpos (digits2_pos q) + e))))
          (fexp prec emax (Zpos (digits2_pos q) + e)
           - Z.min e (fexp prec emax (Zpos (digits2_pos q) + e))))) as HRq.
  unfold round_pair. cbv zeta in *.
  set (Ep := fexp prec emax (Zpos (digits2_pos p) + e)) in *.
  set (Eq := fexp prec emax (Zpos (digits2_pos q) + e)) in *.
  assert (HE : Ep <= Eq) by (apply fexp_mono; lia).
  assert (Hpow : 0 < 2 ^ prec) by (apply Z.pow_pos_nonneg; lia).
  assert (Hpow1 : 0 < 2 ^ (prec - 1)) by (apply Z.pow_pos_nonneg; lia).
  assert (Hpow2 : 2 ^ (prec - 1) < 2 ^ prec) by (apply Z.pow_lt_mono_r; lia).
  destruct (Z.eq_dec Ep Eq) as [Heq|Hne].
  - (* same exponent: the same shift, and rounding is monotone *)
    rewrite <- Heq in *.
    set (ez := Z.min e Ep) in *.
    assert (Hmono :
      rounded (shifted (Zpos p * 2 ^ (e - ez)) (Ep - ez))
      <= rounded (shifted (Zpos q * 2 ^ (e - ez)) (Ep - ez))).
    { assert (H2 : 0 < 2 ^ (e - ez)) by (apply Z.pow_pos_nonneg; lia).
      apply rounded_mono. unfold shifted. apply shr_iter_mono.
      - cbn [exact shr_m]. lia.
      - cbn [exact shr_m]. lia.
      - unfold code. cbn [exact shr_m shr_r shr_s b2z].
        assert (Zpos p * 2 ^ (e - ez) <= Zpos q * 2 ^ (e - ez))
          by (apply Z.mul_le_mono_nonneg_r; lia).
        lia. }
    set (M1p := rounded (shifted (Zpos p * 2 ^ (e - ez)) (Ep - ez))) in *.
    set (M1q := rounded (shifted (Zpos q * 2 ^ (e - ez)) (Ep - ez))) in *.
    unfold pair_le.
    destruct (Z.ltb_spec M1p (2 ^ prec)), (Z.ltb_spec M1q (2 ^ prec));
      cbn [fst snd]; lia.
  - (* a larger exponent: the larger mantissa is a full one *)
    assert (HEq : Eq = Zpos (digits2_pos q) + e - prec).
    { pose proof (fexp_ge_emin (Zpos (digits2_pos p) + e)) as H1. fold Ep in H1.
      unfold Eq, fexp in *. lia. }
    set (ezq := Z.min e Eq) in *.
    assert (Hfull : 2 ^ (prec - 1)
                    <= shr_m (shifted (Zpos q * 2 ^ (e - ezq)) (Eq - ezq))).
    { assert (H2 : 0 < 2 ^ (e - ezq)) by (apply Z.pow_pos_nonneg; lia).
      assert (H3 : 0 < 2 ^ (Eq - ezq)) by (apply Z.pow_pos_nonneg; lia).
      rewrite shifted_m by lia. rewrite Z.max_r by lia.
      apply Z.div_le_lower_bound; [lia|].
      pose proof (digits_bounds q) as [Hl _].
      apply Z.le_trans with (2 ^ (Zpos (digits2_pos q) - 1) * 2 ^ (e - ezq)).
      - rewrite Z.mul_comm. rewrite <- !Z.pow_add_r by lia.
        apply Z.pow_le_mono_r; lia.
      - apply Z.mul_le_mono_nonneg_r; lia. }
    set (M1p := rounded (shifted (Zpos p * 2 ^ (e - Z.min e Ep))
                           (Ep - Z.min e Ep))) in *.
    set (M1q := rounded (shifted (Zpos q * 2 ^ (e - ezq)) (Eq - ezq))) in *.
    unfold pair_le.
    destruct (Z.ltb_spec M1p (2 ^ prec)), (Z.ltb_spec M1q (2 ^ prec));
      cbn [fst snd]; lia.
Qed.

(** The order of two results follows the order of their pairs. *)
Lemma finish_ltb_false (a b : Z * Z) :
  pair_le a b ->
  SFltb (finish prec emax false b) (finish prec emax false a) = false.
Proof.
  destruct a as [ma ea], b as [mb eb]. unfold pair_le, finish, SFltb.
  cbn [fst snd]. intros (Ha & Hb & H).
  destruct ma as [|ma|ma]; [| |lia].
  - destruct mb as [|mb|mb]; [reflexivity| |lia].
    destruct (eb <=? emax - prec); reflexivity.
  - destruct mb as [|mb|mb]; [lia| |lia].
    destruct (Z.leb_spec eb (emax - prec)) as [Hb1|Hb1];
      [|destruct (ea <=? emax - prec); reflexivity].
    destruct (Z.leb_spec ea (emax - prec)) as [Ha1|Ha1]; [|lia].
    cbn [SFcompare].
    destruct H as [H|[[H1 H2]|[H1 H2]]]; [lia| |].
    + rewrite (proj2 (Z.compare_gt_iff eb ea)) by lia. reflexivity.
    + subst eb. rewrite Z.compare_refl.
      change (Pos.compare_cont Eq mb ma) with (Pos.compare mb ma).
      destruct (mb ?= ma)%positive eqn:C; try reflexivity.
      apply Pos.compare_lt_iff in C. apply Pos2Z.pos_lt_pos in C. lia.
Qed.

Lemma binary_round_mono (p q : positive) (e : Z) :
  (p <= q)%positive ->
  SFltb (binary_round prec emax false q e) (binary_round prec emax false p e)
  = false.
Proof.
  intros H. rewrite !binary_round_spec.
  apply finish_ltb_false. now apply round_pair_mono.
Qed.

Lemma finish_ltb_false_neg (a b : Z * Z) :
  pair_le a b ->
  SFltb (finish prec emax true a) (finish prec emax true b) = false.
Proof.
  destruct a as [ma ea], b as [mb eb]. unfold pair_le, finish, SFltb.
  cbn [fst snd]. intros (Ha & Hb & H).
  destruct ma as [|ma|ma]; [| |lia].
  - destruct mb as [|mb|mb]; [reflexivity| |lia].
    destruct (eb <=? emax - prec); reflexivity.
  - destruct mb as [|mb|mb]; [lia| |lia].
    destruct (Z.leb_spec eb (emax - prec)) as [Hb1|Hb1];
      [|destruct (ea <=? emax - prec); reflexivity].
    destruct (Z.leb_spec ea (emax - prec)) as [Ha1|Ha1]; [|lia].
    cbn [SFcompare].
    destruct H as [H|[[H1 H2]|[H1 H2]]]; [lia| |].
    + rewrite (proj2 (Z.compare_lt_iff ea eb)) by lia. reflexivity.
    + subst eb. rewrite Z.compare_refl.
      change (Pos.compare_cont Eq ma mb) with (Pos.compare ma mb).
      destruct (ma ?= mb)%positive eqn:C; try reflexivity.
      apply Pos.compare_gt_iff in C. apply Pos2Z.pos_lt_pos in C. lia.
Qed.

Lemma finish_mixed_ltb_false (a b : Z * Z) :
  SFltb (finish prec emax false a) (finish prec emax true b) = false.
Proof.
  unfold finish, SFltb.
  destruct (fst a), (fst b); try reflexivity;
    try destruct (snd a <=? emax - prec);
    try destruct (snd b <=? emax - prec); reflexivity.
Qed.

Lemma finish_zero_ltb_false (a : Z * Z) :
  SFltb (finish prec emax false a) (S754_zero false) = false
  /\ SFltb (S754_zero false) (finish prec emax true a) = false.
Proof.
  unfold finish, SFltb.
  destruct (fst a); split; try reflexivity;
    destruct (snd a <=? emax - prec); reflexivity.
Qed.

(** Rounding an integer multiple of [2 ^ e] to the format is monotone. *)
Lemma binary_normalize_mono (x y e : Z) :
  x <= y ->
  SFltb (binary_normalize prec emax y e false)
        (binary_normalize prec emax x e false) = false.
Proof.
  intros Hxy. unfold binary_normalize.
  destruct x as [|x|x], y as [|y|y]; try lia; rewrite ?binary_round_spec.
  - reflexivity.
  - apply (proj1 (finish_zero_ltb_false _)).
  - apply finish_ltb_false. apply round_pair_mono.
    apply Pos2Z.pos_le_pos. exact Hxy.
  - apply (proj2 (finish_zero_ltb_false _)).
  - apply finish_mixed_ltb_false.
  - apply finish_ltb_false_neg. apply round_pair_mono.
    apply Pos2Z.pos_le_pos. lia.
Qed.

(** [<] on floats is transitive and irreflexive. *)
Lemma SFltb_trans (a b c : spec_float) :
  SFltb a b = true -> SFltb b c = true -> SFltb a c = true.
Proof.
  unfold SFltb.
  destruct a as [sa|sa| |sa ma ea], b as [sb|sb| |sb mb eb],
    c as [sc|sc| |sc mc ec]; cbn [SFcompare];
    try discriminate; try reflexivity;
    try (destruct sa; try discriminate; try reflexivity);
    try (destruct sb; try discriminate; try reflexivity);
    try (destruct sc; try discriminate; try reflexivity).
  all: change (Pos.compare_cont Eq) with Pos.compare.
  all: destruct (Z.compare_spec ea eb); try discriminate;
    destruct (Z.compare_spec eb ec); try discriminate;
    destruct (Z.compare_spec ea ec); try reflexivity; try lia; subst.
  all: destruct (Pos.compare_spec ma mb); try discriminate;
    destruct (Pos.compare_spec mb mc); try discriminate;
    destruct (Pos.compare_spec ma mc); try reflexivity; cbn [CompOpp];
    try discriminate; subst;
    repeat match goal with
           | H : (_ < _)%positive |- _ => apply Pos2Z.pos_lt_pos in H
           end; try lia.
Qed.

Lemma SFltb_irrefl (a : spec_float) : SFltb a a = false.
Proof.
  unfold SFltb. destruct a as [s|s| |s m e]; cbn [SFcompare];
    try reflexivity; destruct s; try reflexivity;
    rewrite Z.compare_refl;
    change (Pos.compare_cont Eq m m) with (Pos.compare m m);
    rewrite Pos.compare_refl; reflexivity.
Qed.

(** Adding a positive number never gives less than subtracting it. *)
Lemma add_sub_order (s : spec_float) (m : positive) (e : Z) :
  SFltb (SFadd prec emax s (S754_finite false m e))
        (SFsub prec emax s (S754_finite false m e)) = false.
Proof.
  destruct s as [ss|ss| |ss ms es].
  - destruct ss; reflexivity.
  - destruct ss; reflexivity.
  - reflexivity.
  - unfold SFadd, SFsub. apply binary_normalize_mono.
    cbn [cond_Zopp]. lia.
Qed.

Lemma margin_exclusive (s x : spec_float) (m : positive) (e : Z) :
  SFltb (SFadd prec emax s (S754_finite false m e)) x = true ->
  SFltb x (SFsub prec emax s (S754_finite false m e)) = false.
Proof.
  intros H1.
  destruct (SFltb x (SFsub prec emax s (S754_finite false m e))) eqn:H2;
    [|reflexivity].
  pose proof (SFltb_trans _ _ _ H1 H2) as H3.
  rewrite add_sub_order in H3. discriminate.
Qed.

Lemma shr_1_exact_double (a : Z) :
  0 <= a -> shr_1 (exact (2 * a)) = exact a.
Proof. destruct a as [|a|a]; [reflexivity|reflexivity|lia]. Qed.

Lemma shifted_exact (m k : Z) :
  0 <= m -> 0 <= k -> shifted (m * 2 ^ k) k = exact m.
Proof.
  intros Hm Hk. unfold shifted.
  assert (H : forall n : nat,
             Nat.iter n shr_1 (exact (m * 2 ^ Z.of_nat n)) = exact m).
  { induction n as [|n IH].
    - simpl. now rewrite Z.mul_1_r.
    - rewrite Nat.iter_succ_r, Nat2Z.inj_succ, Z.pow_succ_r by lia.
      replace (m * (2 * 2 ^ Z.of_nat n)) with (2 * (m * 2 ^ Z.of_nat n))
        by lia.
      rewrite shr_1_exact_double; [exact IH|].
      apply Z.mul_nonneg_nonneg; [lia|]. apply Z.pow_nonneg. lia. }
  specialize (H (Z.to_nat k)). rewrite Z2Nat.id in H by exact Hk. exact H.
Qed.

(** A canonical mantissa scaled up by a power of two rounds back to
    itself. *)
Lemma round_pair_canonical (p q : positive) (e k : Z) :
  0 <= k ->
  canonical_mantissa prec emax p e = true ->
  Zpos q = Zpos p * 2 ^ k ->
  round_pair prec emax q (e - k) = (Zpos p, e).
Proof.
  intros Hk Hcan Hq. unfold canonical_mantissa in Hcan.
  apply Z.eqb_eq in Hcan.
  assert (Hpow : 0 < 2 ^ k) by (apply Z.pow_pos_nonneg; lia).
  pose proof (digits_bounds p) as [Hl Hh].
  assert (Hdq : Zpos (digits2_pos q) = Zpos (digits2_pos p) + k).
  { apply digits_unique. rewrite Hq. split.
    - replace (Zpos (digits2_pos p) + k - 1)
        with ((Zpos (digits2_pos p) - 1) + k) by lia.
      rewrite Z.pow_add_r by lia. apply Z.mul_le_mono_nonneg_r; lia.
    - rewrite Z.pow_add_r by lia. apply Z.mul_lt_mono_pos_r; lia. }
  unfold round_pair. cbv zeta. rewrite Hdq.
  replace (Zpos (digits2_pos p) + k + (e - k))
    with (Zpos (digits2_pos p) + e) by lia.
  rewrite Hcan. replace (Z.min (e - k) e) with (e - k) by lia.
  replace (e - k - (e - k)) with 0 by lia.
  replace (e - (e - k)) with k by lia.
  rewrite Z.pow_0_r, Z.mul_1_r, Hq, shifted_exact by lia.
  unfold rounded. cbn [exact shr_m loc_of_shr_record round_nearest_even].
  assert (Hlt : Zpos p < 2 ^ prec).
  { apply Z.lt_le_trans with (2 ^ Zpos (digits2_pos p)); [exact Hh|].
    apply Z.pow_le_mono_r; [lia|]. unfold fexp in Hcan. lia. }
  now rewrite (proj2 (Z.ltb_lt _ _) Hlt).
Qed.

(** Subtracting a positive number from a valid float never gives more. *)
Lemma sub_le_self (s : spec_float) (m : positive) (e : Z) :
  valid_binary prec emax s = true ->
  SFltb s (SFsub prec emax s (S754_finite false m e)) = false.
Proof.
  destruct s as [ss|ss| |ss ms es]; intros Hv.
  - destruct ss; reflexivity.
  - destruct ss; reflexivity.
  - reflexivity.
  - cbn [valid_binary] in Hv. unfold bounded in Hv.
    apply andb_true_iff in Hv. destruct Hv as [Hcan Hbd].
    apply Z.leb_le in Hbd.
    unfold SFsub.
    set (ez := Z.min es e).
    destruct (shl_align_spec ms es ez) as [Hq _].
    replace (Z.min es ez) with ez in Hq by lia.
    set (q := fst (shl_align ms es ez)) in *.
    assert (Hself :
      binary_normalize prec emax (cond_Zopp ss (Zpos q)) ez false
      = S754_finite ss ms es).
    { assert (Hrp : round_pair prec emax q ez = (Zpos ms, es)).
      { replace ez with (es - (es - ez)) at 1 by lia.
        apply round_pair_canonical; [lia|exact Hcan|exact Hq]. }
      destruct ss; cbn [cond_Zopp Z.opp binary_normalize];
        rewrite binary_round_spec, Hrp;
        unfold finish; cbn [fst snd];
        now rewrite (proj2 (Z.leb_le _ _) Hbd). }
    rewrite <- Hself at 1.
    apply binary_normalize_mono.
    cbn [cond_Zopp]. lia.
Qed.

End Round.

End RoundingFacts.

(** ** Facts about binary64 comparison and arithmetic *)

Module F64Facts.

Local Open Scope f64_scope.

(** The decimal literals are the correctly rounded quotients, and the
    integer literals are what they name. *)
Example f0_8_is_8_tenths : F64.of_Z 8 / F64.of_Z 10 = F64.f0_8.
Proof. reflexivity. Qed.

Example f0_2_is_2_tenths : F64.of_Z 2 / F64.of_Z 10 = F64.f0_2.
Proof. reflexivity. Qed.

Example f1_0_is_one : F64.f1_0 = S754_finite false 4503599627370496 (-52).
Proof. reflexivity. Qed.

Example literals_valid :
  forallb F64.valid [F64.f70; F64.f30; F64.f1_0; F64.f0_8; F64.f0_2] = true.
Proof. reflexivity. Qed.

Lemma ltb_nan_l (x : float) : (F64.nan <? x) = false.
Proof. reflexivity. Qed.

Lemma ltb_nan_r (x : float) : (x <? F64.nan) = false.
Proof. destruct x; reflexivity. Qed.



Lemma sub_nan_r (x : float) : x - F64.nan = F64.nan.
Proof. destruct x; reflexivity. Qed.

Lemma is_nan_eq (x : float) : F64.is_nan x = true -> x = F64.nan.
Proof. destruct x; simpl; intros H; try discriminate H; reflexivity. Qed.

(** [<] is asymmetric. *)
Lemma ltb_asym (a b : float) : (a <? b) = true -> (b <? a) = false.
Proof.
  unfold F64.ltb, SFltb.
  destruct a as [sa|sa| |sa ma ea], b as [sb|sb| |sb mb eb]; simpl;
    try discriminate; try reflexivity;
    try (destruct sa; try destruct sb; simpl; intros; congruence).
  change (Pos.compare_cont Eq mb ma) with (Pos.compare mb ma).
  change (Pos.compare_cont Eq ma mb) with (Pos.compare ma mb).
  rewrite (Z.compare_antisym ea eb), (Pos.compare_antisym ma mb).
  destruct sa, sb; try discriminate; try reflexivity;
    destruct (ea ?= eb)%Z; simpl; try discriminate; try reflexivity;
    destruct (ma ?= mb)%positive; simpl; congruence.
Qed.

(** Two floats that compare equal are both zeros, or are the same
    number. *)
Lemma eqb_true_cases (a b : float) :
  (a =? b) = true ->
  (F64.is_zero a = true /\ F64.is_zero b = true)
  \/ (a = b /\ F64.is_nan a = false /\ F64.is_zero a = false).
Proof.
  unfold F64.eqb, SFeqb.
  destruct a as [sa|sa| |sa ma ea], b as [sb|sb| |sb mb eb]; simpl;
    try discriminate; auto.
  all: destruct sa; try discriminate.
  all: destruct sb; try discriminate.
  all: auto.
  all: destruct (ea ?= eb)%Z eqn:He; try discriminate;
    apply Z.compare_eq in He; subst eb;
    change (Pos.compare_cont Eq ma mb) with (Pos.compare ma mb);
    destruct (ma ?= mb)%positive eqn:Hm; try discriminate;
    apply Pos.compare_eq in Hm; subst mb; auto.
Qed.

(** A number minus itself is a zero, or NaN for an infinity. *)
Lemma sub_diag (a : float) :
  F64.is_nan a = false ->
  F64.is_zero (a - a) = true \/ F64.is_nan (a - a) = true.
Proof.
  destruct a as [s|s| |s m e]; simpl; try discriminate; intros _.
  - left. destruct s; reflexivity.
  - right. destruct s; reflexivity.
  - left. unfold F64.sub, SFsub. rewrite Z.sub_diag. reflexivity.
Qed.

Lemma sub_zeros (a b : float) :
  F64.is_zero a = true -> F64.is_zero b = true ->
  F64.is_zero (a - b) = true.
Proof.
  destruct a as [sa|sa| |sa ma ea], b as [sb|sb| |sb mb eb];
    simpl; try discriminate.
  destruct sa, sb; reflexivity.
Qed.

(** A quotient by a zero or by NaN is never a finite number: it is NaN or
    an infinity. *)
Lemma div_by_zero (n d : float) :
  F64.is_zero d = true \/ F64.is_nan d = true ->
  F64.is_nan (n / d) = true \/ F64.is_infinity (n / d) = true.
Proof.
  destruct d as [sd|sd| |sd md ed]; simpl; intros [H|H]; try discriminate;
    destruct n; simpl; auto.
Qed.

(** No number lies both above [signal + 1.0] and below [signal - 1.0]. *)
Lemma macd_margins_exclusive (macd signal : float) :
  (macd >? signal + F64.f1_0) = true -> (macd <? signal - F64.f1_0) = false.
Proof.
  unfold F64.gtb, F64.ltb, F64.add, F64.sub.
  change F64.f1_0 with (S754_finite false 4503599627370496 (-52)).
  apply RoundingFacts.margin_exclusive. reflexivity.
Qed.

(** A number above a valid [signal] is not below [signal - 1.0]. *)
Lemma above_signal_not_below_margin (macd signal : float) :
  F64.valid signal = true ->
  (macd >? signal) = true -> (macd <? signal - F64.f1_0) = false.
Proof.
  unfold F64.valid, F64.gtb, F64.ltb, F64.sub. intros Hv Hgt.
  change F64.f1_0 with (S754_finite false 4503599627370496 (-52)).
  destruct (SFltb macd (SFsub F64.prec F64.emax signal
                          (S754_finite false 4503599627370496 (-52))))
    eqn:Hlt; [|reflexivity].
  pose proof (RoundingFacts.SFltb_trans _ _ _ Hgt Hlt) as H.
  rewrite (RoundingFacts.sub_le_self F64.prec F64.emax eq_refl) in H
    by exact Hv.
  discriminate.
Qed.

End F64Facts.

(** ** Facts about the advice rules *)

Module DashboardFacts.

Import Dashboard.
Local Open Scope list_scope.
Local Open Scope f64_scope.

Lemma rsi_rule_app (rsi : float) (adv : list string) :
  rsi_rule rsi adv = adv ++ rsi_rule rsi [].
Proof.
  unfold rsi_rule, append.
  destruct (rsi >? F64.f70); [reflexivity|].
  destruct (rsi <? F64.f30); [reflexivity|].
  now rewrite app_nil_r.
Qed.

Lemma macd_rule_app (macd signal : float) (adv : list string) :
  macd_rule macd signal adv = adv ++ macd_rule macd signal [].
Proof.
  unfold macd_rule, append.
  destruct (macd >? signal + F64.f1_0); [reflexivity|].
  destruct (macd <? signal - F64.f1_0); [reflexivity|].
  now rewrite app_nil_r.
Qed.

Lemma bollinger_rule_app (data : LatestRow) (adv : list string) :
  bollinger_rule data adv = adv ++ bollinger_rule data [].
Proof.
  unfold bollinger_rule, append.
  destruct (Close data >? BBU_20_2_0 data); [reflexivity|].
  destruct (Close data <? BBL_20_2_0 data); [reflexivity|].
  now rewrite app_nil_r.
Qed.

(** The list after rules 1 to 3 is the lines of the RSI rule, then those
    of the MACD rule, then those of the Bollinger rule. *)
Lemma rule_lines_split (data : LatestRow) :
  rule_lines data =
  rsi_rule (RSI_14 data) []
  ++ macd_rule (MACD_12_26_9 data) (MACDs_12_26_9 data) []
  ++ bollinger_rule data [].
Proof.
  unfold rule_lines.
  rewrite bollinger_rule_app, macd_rule_app.
  now rewrite <- app_assoc.
Qed.

Lemma fallback_rule_nonempty (adv : list string) :
  adv <> [] -> fallback_rule adv = adv.
Proof. destruct adv; [congruence | reflexivity]. Qed.

Lemma rule_line_in_advice (data : LatestRow) (line : string) :
  In line (rule_lines data) -> In line (trading_advice data).
Proof.
  unfold trading_advice. intros H.
  rewrite fallback_rule_nonempty; [assumption|].
  intros E. rewrite E in H. exact H.
Qed.

(** The seven advice lines are pairwise different texts. *)
Lemma lines_distinct : NoDup lines.
Proof.
  unfold lines.
  repeat (constructor; [simpl; intuition discriminate|]).
  constructor.
Qed.

(** Each rule adds at most one of its own two lines. *)
Lemma rsi_rule_cases (rsi : float) :
  (rsi_rule rsi [] = [advice_overbought] /\ (rsi >? F64.f70) = true)
  \/ (rsi_rule rsi [] = [advice_oversold]
      /\ (rsi >? F64.f70) = false /\ (rsi <? F64.f30) = true)
  \/ (rsi_rule rsi [] = []
      /\ (rsi >? F64.f70) = false /\ (rsi <? F64.f30) = false).
Proof.
  unfold rsi_rule, append.
  destruct (rsi >? F64.f70); [auto|].
  destruct (rsi <? F64.f30); auto.
Qed.

Lemma macd_rule_cases (macd signal : float) :
  (macd_rule macd signal [] = [advice_macd_bullish]
   /\ (macd >? signal + F64.f1_0) = true)
  \/ (macd_rule macd signal [] = [advice_macd_bearish]
      /\ (macd >? signal + F64.f1_0) = false
      /\ (macd <? signal - F64.f1_0) = true)
  \/ (macd_rule macd signal [] = []
      /\ (macd >? signal + F64.f1_0) = false
      /\ (macd <? signal - F64.f1_0) = false).
Proof.
  unfold macd_rule, append.
  destruct (macd >? signal + F64.f1_0); [auto|].
  destruct (macd <? signal - F64.f1_0); auto.
Qed.

Lemma bollinger_rule_cases (data : LatestRow) :
  (bollinger_rule data [] = [advice_above_upper]
   /\ (Close data >? BBU_20_2_0 data) = true)
  \/ (bollinger_rule data [] = [advice_below_lower]
      /\ (Close data >? BBU_20_2_0 data) = false
      /\ (Close data <? BBL_20_2_0 data) = true)
  \/ (bollinger_rule data [] = []
      /\ (Close data >? BBU_20_2_0 data) = false
      /\ (Close data <? BBL_20_2_0 data) = false).
Proof.
  unfold bollinger_rule, append.
  destruct (Close data >? BBU_20_2_0 data); [auto|].
  destruct (Close data <? BBL_20_2_0 data); auto.
Qed.

(** Case analysis on the three rules at once: 27 concrete advice lists. *)
Ltac rule_cases data :=
  rewrite ?(rule_lines_split data);
  let Er := fresh "Er" in
  let Em := fresh "Em" in
  let Eb := fresh "Eb" in
  destruct (rsi_rule_cases (RSI_14 data)) as [[Er ?]|[[Er [? ?]]|[Er [? ?]]]];
  destruct (macd_rule_cases (MACD_12_26_9 data) (MACDs_12_26_9 data))
    as [[Em ?]|[[Em [? ?]]|[Em [? ?]]]];
  destruct (bollinger_rule_cases data) as [[Eb ?]|[[Eb [? ?]]|[Eb [? ?]]]];
  rewrite ?Er, ?Em, ?Eb;
  cbn [app fallback_rule append List.length].

Lemma has_line_In (line : string) (adv : list string) :
  has_line line adv = true <-> In line adv.
Proof.
  unfold has_line. rewrite existsb_exists. split.
  - intros [x [Hin Heq]]. apply String.eqb_eq in Heq. now subst.
  - intros Hin. exists line. split; [assumption | apply String.eqb_refl].
Qed.

(** Membership of an advice line in a concrete list of advice lines, and
    equations between such lists, settled by evaluation. *)
Ltac closed_lines :=
  rewrite <- ?has_line_In; vm_compute;
  intuition (try discriminate; try congruence).











End DashboardFacts.

(** ** The classifier's claims *)

Import Dashboard DashboardFacts.
Local Open Scope list_scope.
Local Open Scope f64_scope.

(** C1, as the code has it.  When [bbUpper == bbLower] the Bollinger rule is
    not skipped.  The divisor [bbUpper - bbLower] is a zero (NaN for two
    equal infinities) and the division is carried out by the IEEE rules
    without raising: [bb_percent] is NaN, +infinity or -infinity and the
    status is "Normal", "High Volatility" or "Low Volatility" accordingly.
    The advice rule still fires on a breach of the band. *)
Theorem C1_collapsed_bands_are_still_classified (data : LatestRow) :
  (BBU_20_2_0 data =? BBL_20_2_0 data) = true ->
  (F64.is_zero (bb_width data) = true \/ F64.is_nan (bb_width data) = true)
  /\ ((bb_percent data = F64.nan
       /\ bollingerStatus (classify data) = "Normal")
      \/ (bb_percent data = S754_infinity false
          /\ bollingerStatus (classify data) = "High Volatility")
      \/ (bb_percent data = S754_infinity true
          /\ bollingerStatus (classify data) = "Low Volatility"))
  /\ ((Close data >? BBU_20_2_0 data) = true ->
      In advice_above_upper (advice (classify data)))
  /\ ((Close data <? BBL_20_2_0 data) = true ->
      In advice_below_lower (advice (classify data))).
Proof.
  intros Heq.
  assert (Hw : F64.is_zero (bb_width data) = true
               \/ F64.is_nan (bb_width data) = true).
  { unfold bb_width.
    destruct (F64Facts.eqb_true_cases _ _ Heq) as [[Ha Hb]|[Hab [Hn _]]].
    - left. now apply F64Facts.sub_zeros.
    - rewrite Hab in *. now apply F64Facts.sub_diag. }
  split; [exact Hw|]. split; [|split].
  - cbn [classify bollingerStatus]. unfold bb_percent.
    pose proof (F64Facts.div_by_zero
                  (Close data - BBL_20_2_0 data) (bb_width data) Hw) as Hq.
    destruct ((Close data - BBL_20_2_0 data) / bb_width data) as [s|s| |s m e];
      simpl in Hq; try (destruct Hq; discriminate).
    + destruct s; [right; right | right; left]; split; reflexivity.
    + left. split; reflexivity.
  - intros Hgt. cbn [classify advice]. apply rule_line_in_advice.
    rewrite rule_lines_split. apply in_or_app. right. apply in_or_app. right.
    unfold bollinger_rule. rewrite Hgt. now left.
  - intros Hlt. cbn [classify advice]. apply rule_line_in_advice.
    rewrite rule_lines_split. apply in_or_app. right. apply in_or_app. right.
    assert (Hngt : (Close data >? BBU_20_2_0 data) = false).
    { destruct (F64Facts.eqb_true_cases _ _ Heq) as [[Ha Hb]|[Hab _]].
      - unfold F64.gtb, F64.ltb in *.
        destruct (BBU_20_2_0 data), (BBL_20_2_0 data); try discriminate.
        destruct (Close data) as [sc|sc| |sc mc ec]; try discriminate;
          destruct sc; try discriminate; reflexivity.
      - rewrite Hab. now apply F64Facts.ltb_asym. }
    unfold bollinger_rule. rewrite Hngt, Hlt. now left.
Qed.

Lemma C1_witness :
  (BBU_20_2_0 Samples.collapsed_row =? BBL_20_2_0 Samples.collapsed_row) = true
  /\ bb_percent Samples.collapsed_row = S754_infinity false
  /\ bollingerStatus (classify Samples.collapsed_row) = "High Volatility"
  /\ In advice_above_upper (advice (classify Samples.collapsed_row)).
Proof.
  pose proof (C1_collapsed_bands_are_still_classified
                Samples.collapsed_row eq_refl) as [_ [_ [H _]]].
  repeat split; try reflexivity.
  apply H. reflexivity.
Defined.

(** C1, as stated, fails: with both bands at 50000 and the close at 50001
    the divisor is zero, yet the section produces the status
    "High Volatility" and the upper-band advice line. *)
Lemma C1_counterexample :
  (BBU_20_2_0 Samples.collapsed_row =? BBL_20_2_0 Samples.collapsed_row) = true
  /\ bb_width Samples.collapsed_row = S754_zero false
  /\ bollingerPercent (classify Samples.collapsed_row) = S754_infinity false
  /\ bollingerStatus (classify Samples.collapsed_row) = "High Volatility"
  /\ advice (classify Samples.collapsed_row) = [advice_above_upper].
Proof. vm_compute. repeat split; reflexivity. Qed.

(** C3.  When the RSI rule, the MACD margin rule and the Bollinger breach
    rule all fire, the advice list is exactly the RSI line, then the MACD
    line, then the Bollinger line. *)
Theorem C3_advice_order_when_all_rules_fire (data : LatestRow) :
  (RSI_14 data >? F64.f70) = true \/ (RSI_14 data <? F64.f30) = true ->
  (MACD_12_26_9 data >? MACDs_12_26_9 data + F64.f1_0) = true
  \/ (MACD_12_26_9 data <? MACDs_12_26_9 data - F64.f1_0) = true ->
  (Close data >? BBU_20_2_0 data) = true
  \/ (Close data <? BBL_20_2_0 data) = true ->
  advice (classify data) =
  [ if RSI_14 data >? F64.f70 then advice_overbought else advice_oversold;
    if MACD_12_26_9 data >? MACDs_12_26_9 data + F64.f1_0
    then advice_macd_bullish else advice_macd_bearish;
    if Close data >? BBU_20_2_0 data
    then advice_above_upper else advice_below_lower ].
Proof.
  intros Hr Hm Hb. cbn [classify advice].
  unfold trading_advice, rule_lines, bollinger_rule, macd_rule, rsi_rule,
    append.
  destruct (RSI_14 data >? F64.f70);
    [|destruct Hr as [Hr|Hr]; [discriminate|rewrite Hr]];
    (destruct (MACD_12_26_9 data >? MACDs_12_26_9 data + F64.f1_0);
     [|destruct Hm as [Hm|Hm]; [discriminate|rewrite Hm]]);
    (destruct (Close data >? BBU_20_2_0 data);
     [|destruct Hb as [Hb|Hb]; [discriminate|rewrite Hb]]);
    reflexivity.
Qed.

Lemma C3_witness :
  advice (classify Samples.all_fire_row) =
  [advice_overbought; advice_macd_bullish; advice_above_upper].
Proof.
  exact (C3_advice_order_when_all_rules_fire Samples.all_fire_row
           (or_introl eq_refl) (or_introl eq_refl) (or_introl eq_refl)).
Defined.

(** C4.  The MACD status is "Bullish" exactly when [macd > signal] and
    "Bearish" otherwise.  The advice fires on the margin only: the bullish
    line when [macd > signal + 1.0], the bearish line when
    [macd < signal - 1.0], and no line when neither holds; in particular a
    MACD above its signal by no more than 1.0 has the status "Bullish" and
    no advice line. *)
Theorem C4_macd_status_and_advice_thresholds
  (macd signal : float) (adv : list string) :
  (macd_status macd signal = "Bullish ↗️" <-> (macd >? signal) = true)
  /\ (macd_status macd signal = "Bearish ↘️" <-> (macd >? signal) = false)
  /\ ((macd >? signal + F64.f1_0) = true ->
      macd_rule macd signal adv = adv ++ [advice_macd_bullish])
  /\ ((macd <? signal - F64.f1_0) = true ->
      macd_rule macd signal adv = adv ++ [advice_macd_bearish])
  /\ ((macd >? signal + F64.f1_0) = false ->
      (macd <? signal - F64.f1_0) = false ->
      macd_rule macd signal adv = adv)
  /\ (F64.valid signal = true ->
      (macd >? signal) = true ->
      (macd >? signal + F64.f1_0) = false ->
      macd_status macd signal = "Bullish ↗️"
      /\ macd_rule macd signal adv = adv).
Proof.
  unfold macd_status, macd_rule, append.
  split; [|split; [|split; [|split; [|split]]]].
  - destruct (macd >? signal); split; intros H;
      first [reflexivity | discriminate H].
  - destruct (macd >? signal); split; intros H;
      first [reflexivity | discriminate H].
  - intros ->. reflexivity.
  - intros Hlt.
    destruct (macd >? signal + F64.f1_0) eqn:Hgt.
    + rewrite (F64Facts.macd_margins_exclusive _ _ Hgt) in Hlt. discriminate.
    + rewrite Hlt. reflexivity.
  - intros -> ->. reflexivity.
  - intros Hv Hgt Hm. rewrite Hgt, Hm.
    now rewrite (F64Facts.above_signal_not_below_margin _ _ Hv Hgt).
Qed.

Lemma C4_witness :
  macd_status Samples.narrow_macd Samples.narrow_signal = "Bullish ↗️"
  /\ macd_rule Samples.narrow_macd Samples.narrow_signal [] = [].
Proof.
  exact (proj2 (proj2 (proj2 (proj2 (proj2
           (C4_macd_status_and_advice_thresholds
              Samples.narrow_macd Samples.narrow_signal [])))))
           eq_refl eq_refl eq_refl).
Defined.

(** C6.  If rules 1 to 3 wrote no line, the advice is exactly the one
    fallback line; if any of them wrote a line, the advice is what they
    wrote and the fallback line is absent. *)
Theorem C6_fallback_exactly_when_no_rule_fired (data : LatestRow) :
  (rule_lines data = [] -> advice (classify data) = [advice_fallback])
  /\ (rule_lines data <> [] ->
      advice (classify data) = rule_lines data
      /\ ~ In advice_fallback (advice (classify data)))
  /\ (count_occ string_dec (advice (classify data)) advice_fallback <= 1)%nat
  /\ ~ In advice_fallback (rule_lines data).
Proof.
  cbn [classify advice]. unfold trading_advice.
  assert (Hnot : ~ In advice_fallback (rule_lines data)).
  { rule_cases data; closed_lines. }
  split; [|split; [|split]].
  - intros ->. reflexivity.
  - intros Hne. rewrite (fallback_rule_nonempty _ Hne). split; [reflexivity|].
    exact Hnot.
  - destruct (rule_lines data) as [|l ls] eqn:E.
    + reflexivity.
    + cbn [fallback_rule].
      rewrite (proj1 (count_occ_not_In string_dec _ _) Hnot). lia.
  - exact Hnot.
Qed.



(** C9.  An undefined (NaN) RSI is classified "Neutral" and writes no RSI
    advice line: both [rsi > 70] and [rsi < 30] are false for NaN. *)
Theorem C9_undefined_rsi_is_neutral (data : LatestRow) :
  F64.is_nan (RSI_14 data) = true ->
  (RSI_14 data >? F64.f70) = false
  /\ (RSI_14 data <? F64.f30) = false
  /\ rsiStatus (classify data) = "Neutral"
  /\ (forall adv, rsi_rule (RSI_14 data) adv = adv)
  /\ ~ In advice_overbought (advice (classify data))
  /\ ~ In advice_oversold (advice (classify data)).
Proof.
  intros Hnan. apply F64Facts.is_nan_eq in Hnan.
  assert (H70 : (RSI_14 data >? F64.f70) = false)
    by (rewrite Hnan; apply F64Facts.ltb_nan_r).
  assert (H30 : (RSI_14 data <? F64.f30) = false)
    by (rewrite Hnan; apply F64Facts.ltb_nan_l).
  split; [exact H70|]. split; [exact H30|]. split; [|split].
  - cbn [classify rsiStatus]. unfold rsi_status. now rewrite H70, H30.
  - intros adv. unfold rsi_rule. now rewrite H70, H30.
  - cbn [classify advice]. unfold trading_advice.
    split; rule_cases data; try congruence; closed_lines.
Qed.

Lemma C9_witness :
  rsiStatus (classify Samples.undefined_rsi_row) = "Neutral"
  /\ advice (classify Samples.undefined_rsi_row) = [advice_fallback].
Proof.
  split.
  - exact (proj1 (proj2 (proj2
             (C9_undefined_rsi_is_neutral Samples.undefined_rsi_row eq_refl)))).
  - reflexivity.
Defined.

(** C10.  The advice list has between one and three lines: each of the three
    rules writes at most one line (its two lines exclude each other), and
    the fallback line is present exactly when the three rules wrote
    nothing. *)
Theorem C10_advice_length_bounds (data : LatestRow) :
  (1 <= List.length (advice (classify data)) <= 3)%nat
  /\ (List.length (rsi_rule (RSI_14 data) []) <= 1)%nat
  /\ (List.length (macd_rule (MACD_12_26_9 data) (MACDs_12_26_9 data) [])
      <= 1)%nat
  /\ (List.length (bollinger_rule data []) <= 1)%nat
  /\ ~ (In advice_overbought (advice (classify data))
        /\ In advice_oversold (advice (classify data)))
  /\ ~ (In advice_macd_bullish (advice (classify data))
        /\ In advice_macd_bearish (advice (classify data)))
  /\ ~ (In advice_above_upper (advice (classify data))
        /\ In advice_below_lower (advice (classify data)))
  /\ (In advice_fallback (advice (classify data)) <-> rule_lines data = [])
  /\ NoDup (advice (classify data)).
Proof.
  cbn [classify advice]. unfold trading_advice.
  repeat match goal with |- _ /\ _ => split end.
  1-5: rule_cases data; lia.
  1-4: rule_cases data; closed_lines.
  rule_cases data;
    repeat (constructor; [closed_lines|]); constructor.
Qed.

(** ** Facts about the indicator columns *)

Module EngineFacts.

Import Engine.
Local Open Scope list_scope.
Local Open Scope nat_scope.

(** *** Lengths: every column is as long as the list of closes *)














(** *** Undefined prefixes *)












(** *** Rows of the frame *)




(** *** The last row *)


Lemma iloc_last_nonempty {A : Type} (xs : list A) :
  xs <> [] -> exists x, Pipeline.iloc_last xs = Some x.
Proof.
  intros Hne. unfold Pipeline.iloc_last.
  destruct (rev xs) as [|y ys] eqn:E; [|now exists y].
  exfalso. apply Hne. apply (f_equal (@rev A)) in E.
  now rewrite rev_involutive in E.
Qed.

End EngineFacts.

(** ** The engine's claims *)

Import Engine EngineFacts.








(** * Further properties of the page *)

(** ** More on rounding: bounds, signs and quotients *)

Module MoreRounding.
Import Rounding RoundingFacts.
Local Open Scope Z_scope.

Section Bounds.
Variables prec emax : Z.
Hypothesis Hprec : 0 < prec.

(** Adding a positive number to a valid float never gives less. *)
Lemma add_ge_self (s : spec_float) (m : positive) (e : Z) :
  valid_binary prec emax s = true ->
  SFltb (SFadd prec emax s (S754_finite false m e)) s = false.
Proof.
  destruct s as [ss|ss| |ss ms es]; intros Hv.
  - destruct ss; reflexivity.
  - destruct ss; reflexivity.
  - reflexivity.
  - cbn [valid_binary] in Hv. unfold bounded in Hv.
    apply andb_true_iff in Hv. destruct Hv as [Hcan Hbd].
    apply Z.leb_le in Hbd.
    unfold SFadd.
    set (ez := Z.min es e).
    destruct (shl_align_spec ms es ez) as [Hq _].
    replace (Z.min es ez) with ez in Hq by lia.
    set (q := fst (shl_align ms es ez)) in *.
    assert (Hself :
      binary_normalize prec emax (cond_Zopp ss (Zpos q)) ez false
      = S754_finite ss ms es).
    { assert (Hrp : round_pair prec emax q ez = (Zpos ms, es)).
      { replace ez with (es - (es - ez)) at 1 by lia.
        apply round_pair_canonical; [lia|exact Hcan|exact Hq]. }
      destruct ss; cbn [cond_Zopp Z.opp binary_normalize];
        rewrite binary_round_spec by exact Hprec; rewrite Hrp;
        unfold finish; cbn [fst snd];
        now rewrite (proj2 (Z.leb_le _ _) Hbd). }
    rewrite <- Hself.
    apply binary_normalize_mono; [exact Hprec|].
    cbn [cond_Zopp]. lia.
Qed.

End Bounds.

(** [a <= b < c] gives [a < c], where [a <= b] is read as "not [b < a]"
    for a number [a]. *)
Lemma SFltb_le_lt_trans (a b c : spec_float) :
  F64.is_nan a = false ->
  SFltb b a = false -> SFltb b c = true -> SFltb a c = true.
Proof.
  unfold SFltb.
  destruct a as [sa|sa| |sa ma ea], b as [sb|sb| |sb mb eb],
    c as [sc|sc| |sc mc ec]; cbn [SFcompare F64.is_nan];
    try discriminate; try reflexivity;
    try (destruct sa; try discriminate; try reflexivity);
    try (destruct sb; try discriminate; try reflexivity);
    try (destruct sc; try discriminate; try reflexivity).
  all: change (Pos.compare_cont Eq) with Pos.compare.
  all: intros _.
  all: destruct (Z.compare_spec eb ea); try discriminate;
    destruct (Z.compare_spec eb ec); try discriminate;
    destruct (Z.compare_spec ea ec); try reflexivity; try lia; subst.
  all: destruct (Pos.compare_spec mb ma); try discriminate;
    destruct (Pos.compare_spec mb mc); try discriminate;
    destruct (Pos.compare_spec ma mc); try reflexivity; cbn [CompOpp];
    try discriminate; subst;
    repeat match goal with
           | H : (_ < _)%positive |- _ => apply Pos2Z.pos_lt_pos in H
           end; try lia.
Qed.

End MoreRounding.

Module SignFacts.
Import Rounding RoundingFacts.
Local Open Scope Z_scope.

Section Sign.
Variables prec emax : Z.
Hypothesis Hprec : 0 < prec.

(** A canonical mantissa has at most [prec] digits and an exponent of at
    least [emin]; above [emin] it has exactly [prec] digits. *)
Lemma canonical_bounds (m : positive) (e : Z) :
  canonical_mantissa prec emax m e = true ->
  emin prec emax <= e
  /\ Zpos m < 2 ^ prec
  /\ (emin prec emax < e -> 2 ^ (prec - 1) <= Zpos m).
Proof.
  unfold canonical_mantissa. intros H. apply Z.eqb_eq in H.
  pose proof (digits_bounds m) as [Hl Hh].
  unfold fexp in H.
  split; [lia|]. split.
  - apply Z.lt_le_trans with (2 ^ Zpos (digits2_pos m)); [exact Hh|].
    apply Z.pow_le_mono_r; lia.
  - intros He. replace (prec - 1) with (Zpos (digits2_pos m) - 1) by lia.
    exact Hl.
Qed.

(** The order of two canonical positive floats is the order of their
    mantissas at the smaller exponent. *)
Lemma canonical_compare (m1 m2 : positive) (e1 e2 : Z) :
  canonical_mantissa prec emax m1 e1 = true ->
  canonical_mantissa prec emax m2 e2 = true ->
  SFcompare (S754_finite false m1 e1) (S754_finite false m2 e2)
  = Some (Zpos m1 * 2 ^ (e1 - Z.min e1 e2)
          ?= Zpos m2 * 2 ^ (e2 - Z.min e1 e2)).
Proof.
  intros H1 H2.
  destruct (canonical_bounds m1 e1 H1) as (Hm1 & Hu1 & Hl1).
  destruct (canonical_bounds m2 e2 H2) as (Hm2 & Hu2 & Hl2).
  cbn [SFcompare]. f_equal.
  assert (Hpp : 2 ^ prec = 2 * 2 ^ (prec - 1)).
  { rewrite <- Z.pow_succ_r by lia. f_equal. lia. }
  destruct (Z.compare_spec e1 e2) as [->|Hlt|Hgt].
  - rewrite Z.min_id, Z.sub_diag, Z.pow_0_r, !Z.mul_1_r. reflexivity.
  - rewrite Z.min_l by lia. rewrite Z.sub_diag, Z.pow_0_r, Z.mul_1_r.
    symmetry. apply Z.compare_lt_iff.
    assert (2 <= 2 ^ (e2 - e1)).
    { change 2 with (2 ^ 1) at 1. apply Z.pow_le_mono_r; lia. }
    specialize (Hl2 ltac:(lia)). nia.
  - rewrite Z.min_r by lia. rewrite Z.sub_diag, Z.pow_0_r, Z.mul_1_r.
    symmetry. apply Z.compare_gt_iff.
    assert (2 <= 2 ^ (e1 - e2)).
    { change 2 with (2 ^ 1) at 1. apply Z.pow_le_mono_r; lia. }
    specialize (Hl1 ltac:(lia)). nia.
Qed.

(** Rounding a positive mantissa at an exponent of at least [emin] never
    gives zero. *)
Lemma round_pair_pos (p : positive) (e : Z) :
  emin prec emax <= e -> 0 < fst (round_pair prec emax p e).
Proof.
  intros He. unfold round_pair. cbv zeta.
  set (E := fexp prec emax (Zpos (digits2_pos p) + e)).
  set (ez := Z.min e E).
  assert (Hpow1 : 0 < 2 ^ (prec - 1)) by (apply Z.pow_pos_nonneg; lia).
  assert (H2 : 0 < 2 ^ (e - ez)) by (apply Z.pow_pos_nonneg; lia).
  assert (HM : 0 < rounded (shifted (Zpos p * 2 ^ (e - ez)) (E - ez))).
  { pose proof (rounded_bounds (shifted (Zpos p * 2 ^ (e - ez)) (E - ez)))
      as [Hb _].
    apply Z.lt_le_trans with (2 := Hb).
    rewrite shifted_m by lia.
    destruct (Z.le_gt_cases E e) as [Hle|Hgt].
    - replace (E - ez) with 0 by lia. rewrite Z.max_l by lia.
      rewrite Z.pow_0_r, Z.div_1_r. lia.
    - assert (HE : E = Zpos (digits2_pos p) + e - prec)
        by (unfold E, fexp in *; lia).
      assert (H3 : 0 < 2 ^ (E - ez)) by (apply Z.pow_pos_nonneg; lia).
      rewrite Z.max_r by lia.
      apply Z.lt_le_trans with (2 ^ (prec - 1)); [exact Hpow1|].
      apply Z.div_le_lower_bound; [lia|].
      pose proof (digits_bounds p) as [Hl _].
      apply Z.le_trans with (2 ^ (Zpos (digits2_pos p) - 1) * 2 ^ (e - ez)).
      + rewrite Z.mul_comm. rewrite <- !Z.pow_add_r by lia.
        apply Z.pow_le_mono_r; lia.
      + apply Z.mul_le_mono_nonneg_r; lia. }
  destruct (rounded (shifted (Zpos p * 2 ^ (e - ez)) (E - ez)) <? 2 ^ prec);
    cbn [fst]; lia.
Qed.

(** The sign of a rounded integer is the sign of the integer. *)
Lemma binary_normalize_sign (z e : Z) :
  emin prec emax <= e ->
  SFltb (S754_zero false) (binary_normalize prec emax z e false) = (0 <? z)
  /\ SFltb (binary_normalize prec emax z e false) (S754_zero false) = (z <? 0)
  /\ F64.is_zero (binary_normalize prec emax z e false) = (z =? 0).
Proof.
  intros He. unfold binary_normalize.
  destruct z as [|p|p]; [repeat split| |];
    rewrite (binary_round_spec prec emax Hprec);
    pose proof (round_pair_pos p e He) as Hpos;
    unfold finish; destruct (fst (round_pair prec emax p e)); try lia;
    destruct (snd (round_pair prec emax p e) <=? emax - prec);
    repeat split.
Qed.

(** The sign of a difference of two valid finite floats is the order of
    the two. *)
Lemma sub_sign (x y : spec_float) :
  valid_binary prec emax x = true -> valid_binary prec emax y = true ->
  (exists s m e, x = S754_finite s m e) ->
  (exists s m e, y = S754_finite s m e) ->
  SFltb (S754_zero false) (SFsub prec emax x y) = SFltb y x
  /\ SFltb (SFsub prec emax x y) (S754_zero false) = SFltb x y
  /\ F64.is_zero (SFsub prec emax x y) = SFeqb x y.
Proof.
  intros Hvx Hvy (sx & mx & ex & ->) (sy & my & ey & ->).
  cbn [valid_binary] in Hvx, Hvy. unfold bounded in Hvx, Hvy.
  apply andb_true_iff in Hvx, Hvy.
  destruct Hvx as [Hcx _], Hvy as [Hcy _].
  destruct (canonical_bounds mx ex Hcx) as (Hex & _).
  destruct (canonical_bounds my ey Hcy) as (Hey & _).
  unfold SFsub.
  set (ez := Z.min ex ey).
  destruct (shl_align_spec mx ex ez) as [Hqx _].
  destruct (shl_align_spec my ey ez) as [Hqy _].
  replace (Z.min ex ez) with ez in Hqx by lia.
  replace (Z.min ey ez) with ez in Hqy by lia.
  set (qx := fst (shl_align mx ex ez)) in *.
  set (qy := fst (shl_align my ey ez)) in *.
  destruct (binary_normalize_sign
              (cond_Zopp sx (Zpos qx) - cond_Zopp sy (Zpos qy)) ez)
    as (-> & -> & ->); [lia|].
  pose proof (canonical_compare mx my ex ey Hcx Hcy) as Hxy.
  pose proof (canonical_compare my mx ey ex Hcy Hcx) as Hyx.
  fold ez in Hxy. rewrite (Z.min_comm ey ex) in Hyx. fold ez in Hyx.
  rewrite <- Hqx, <- Hqy in Hxy, Hyx.
  unfold SFltb, SFeqb.
  clear Hyx.
  destruct sx, sy; cbn [cond_Zopp SFcompare] in *;
    try (repeat split;
         first [apply Z.ltb_lt | apply Z.ltb_ge | apply Z.eqb_eq
               | apply Z.eqb_neq]; lia).
  all: injection Hxy as Hxy.
  all: change (Pos.compare_cont Eq) with Pos.compare in *.
  all: rewrite (Z.compare_antisym ex ey), (Pos.compare_antisym mx my).
  all: destruct (Pos.compare_spec qx qy) as [Hq|Hq|Hq];
    [subst qy| apply Pos2Z.pos_lt_pos in Hq | apply Pos2Z.pos_lt_pos in Hq].
  all: destruct (ex ?= ey); cbn [CompOpp] in *; try discriminate Hxy;
    rewrite ?Hxy; cbn [CompOpp]; repeat split;
    first [apply Z.ltb_lt | apply Z.ltb_ge | apply Z.eqb_eq
          | apply Z.eqb_neq]; lia.
Qed.

End Sign.
End SignFacts.

Module DivFacts.
Import Rounding RoundingFacts.
Local Open Scope Z_scope.

Section Division.
Variables prec emax : Z.

(** The result of rounding a non-negative mantissa carries the sign it is
    given: it is a zero, a finite number or an infinity of that sign. *)
Lemma binary_round_aux_sign (s : bool) (m e : Z) (l : location) :
  0 <= m ->
  match binary_round_aux prec emax s m e l with
  | S754_zero s' | S754_finite s' _ _ | S754_infinity s' => s' = s
  | S754_nan => False
  end.
Proof.
  intros Hm. unfold binary_round_aux, shr_fexp. rewrite !shr_spec.
  set (r1 := Nat.iter _ shr_1 (shr_record_of_loc m l)).
  assert (H1 : 0 <= shr_m r1).
  { unfold r1. rewrite shr_iter_m by (destruct l as [|[]]; exact Hm).
    apply Z.div_pos; [destruct l as [|[]]; exact Hm|].
    apply Z.pow_pos_nonneg; lia. }
  pose proof (rounded_bounds r1) as [Hr _]. unfold rounded in Hr.
  set (m1 := round_nearest_even (shr_m r1) (loc_of_shr_record r1)) in *.
  set (r2 := Nat.iter _ shr_1 (shr_record_of_loc m1 loc_Exact)).
  assert (H2 : 0 <= shr_m r2).
  { unfold r2. rewrite shr_iter_m by (cbn [shr_record_of_loc shr_m]; lia).
    apply Z.div_pos; [cbn [shr_record_of_loc shr_m]; lia|].
    apply Z.pow_pos_nonneg; lia. }
  destruct (shr_m r2); [reflexivity| |lia].
  destruct (_ <=? _); reflexivity.
Qed.

Lemma div_sign (sx sy : bool) (mx my : positive) (ex ey : Z) :
  match SFdiv prec emax (S754_finite sx mx ex) (S754_finite sy my ey) with
  | S754_zero s' | S754_finite s' _ _ | S754_infinity s' => s' = xorb sx sy
  | S754_nan => False
  end.
Proof.
  unfold SFdiv.
  destruct (SFdiv_core_binary prec emax (Zpos mx) ex (Zpos my) ey)
    as [[mz ez] lz] eqn:E.
  apply binary_round_aux_sign.
  unfold SFdiv_core_binary in E.
  set (m' := match _ - _ - _ with
             | 0 => Zpos mx | Zpos _ => _ | Zneg _ => 0 end) in E.
  assert (Hm' : 0 <= m').
  { unfold m'. destruct (_ - _ - _); try lia.
    rewrite Z.shiftl_mul_pow2 by lia.
    apply Z.mul_nonneg_nonneg; [lia|]. apply Z.pow_nonneg. lia. }
  pose proof (Z.div_eucl_eq m' (Zpos my) ltac:(lia)) as Hd.
  pose proof (Z.mod_pos_bound m' (Zpos my) ltac:(lia)) as Hb.
  unfold Z.modulo in Hb.
  destruct (Z.div_eucl m' (Zpos my)) as [q r].
  injection E as <- _ _. nia.
Qed.

End Division.
End DivFacts.

(** ** The fetchers and what [main] shows of them *)

Module PageFacts.

Import Py Page.
Local Open Scope string_scope.
Local Open Scope Z_scope.
Local Open Scope list_scope.

Lemma bind_inr {A B : Type} (m : result A) (k : A -> result B) (b : B) :
  bind m k = inr b <-> exists a, m = inr a /\ k a = inr b.
Proof.
  destruct m as [e|a]; cbn [bind]; split.
  - discriminate.
  - intros [a [H _]]. discriminate.
  - intros H. now exists a.
  - intros [a' [H1 H2]]. injection H1 as ->. exact H2.
Qed.

Lemma getitem_inr (x : value) (key : string) (v : value) :
  getitem x key = inr v <->
  exists entries, x = PDict entries /\ lookup key entries = Some v.
Proof.
  unfold getitem, ret, raise. split.
  - destruct x; try discriminate.
    destruct (lookup key entries) eqn:E; [|discriminate].
    intros H. injection H as ->. now exists entries.
  - intros [entries [-> ->]]. reflexivity.
Qed.

Lemma getitem_0_dict (x : value) (entries : list (string * value)) :
  getitem_0 x = inr (PDict entries) <->
  exists rest, x = PList (PDict entries :: rest).
Proof.
  unfold getitem_0, ret, raise. split.
  - destruct x as [| | | |s|items|d]; try discriminate.
    + destruct s; discriminate.
    + destruct items as [|v rest]; [discriminate|].
      intros H. injection H as ->. now exists rest.
  - intros [rest ->]. reflexivity.
Qed.

(** No decimal numeral reads "N/A". *)
Lemma decimal_not_na (z : Z) : decimal z <> "N/A".
Proof.
  unfold decimal. intros H.
  assert (Hsome : exists d,
             NilZero.int_of_string (NilZero.string_of_int (Z.to_int z))
             = Some d).
  { destruct (Z.to_int z) as [d|d] eqn:E.
    - destruct d; [rewrite NilZero.isi_posnil; eauto
                  |rewrite NilZero.isi by discriminate; eauto ..].
    - destruct d; [rewrite NilZero.isi_negnil; eauto
                  |rewrite NilZero.isi by discriminate; eauto ..]. }
  rewrite H in Hsome. destruct Hsome as [d Hd]. discriminate Hd.
Qed.


Lemma fear_greed_try_inr (py_int : value -> result Z)
  (response : result value) (v : Z) (c : value) :
  fear_greed_try py_int response = inr (v, c) <->
  exists body entries rest raw,
    response = inr body
    /\ getitem body "data" = inr (PList (PDict entries :: rest))
    /\ lookup "value" entries = Some raw
    /\ py_int raw = inr v
    /\ lookup "value_classification" entries = Some c.
Proof.
  unfold fear_greed_try. split.
  - intros H.
    apply bind_inr in H. destruct H as (body & Hb & H).
    apply bind_inr in H. destruct H as (items & Hi & H).
    apply bind_inr in H. destruct H as (data & Hd & H).
    apply bind_inr in H. destruct H as (raw & Hr & H).
    apply bind_inr in H. destruct H as (v' & Hv & H).
    apply bind_inr in H. destruct H as (c' & Hc & H).
    injection H as -> ->.
    apply getitem_inr in Hr. destruct Hr as (entries & -> & Hr).
    apply getitem_0_dict in Hd. destruct Hd as (rest & ->).
    apply getitem_inr in Hc. destruct Hc as (entries' & He & Hc).
    injection He as <-.
    exists body, entries, rest, raw. auto.
  - intros (body & entries & rest & raw & -> & Hd & Hr & Hv & Hc).
    cbn [bind]. rewrite Hd. cbn [bind getitem_0 ret getitem].
    rewrite Hr. cbn [bind ret]. rewrite Hv. cbn [bind ret]. rewrite Hc.
    reflexivity.
Qed.

(** X1.  [get_fear_greed] returns a value and its classification only when
    the whole chain succeeds: the request and the decoding, a non-empty
    list under ["data"] whose first item is a dict, a ["value"] that [int]
    accepts and a ["value_classification"].  In every other case, a
    missing classification beside a good value included, it shows one error
    banner and returns [(None, "N/A")]. *)
Theorem X1_fear_greed_all_or_nothing (py_int : value -> result Z)
  (response : result value) :
  (forall (v : Z) (c : value) (events : list ui_event),
      get_fear_greed py_int response = ((Some v, c), events) <->
      events = []
      /\ exists body entries rest raw,
           response = inr body
           /\ getitem body "data" = inr (PList (PDict entries :: rest))
           /\ lookup "value" entries = Some raw
           /\ py_int raw = inr v
           /\ lookup "value_classification" entries = Some c)
  /\ ((exists v c, get_fear_greed py_int response = ((Some v, c), []))
      \/ (exists e,
            get_fear_greed py_int response
            = ((None, PStr "N/A"), [StError "Fear & Greed Error: " e]))).
Proof.
  unfold get_fear_greed. split.
  - intros v c events. rewrite <- fear_greed_try_inr.
    destruct (fear_greed_try py_int response) as [e|[v' c']]; split.
    + discriminate.
    + intros [_ H]. discriminate H.
    + intros H. injection H as -> -> <-. auto.
    + intros [-> H]. injection H as -> ->. reflexivity.
  - destruct (fear_greed_try py_int response) as [e|[v c]]; eauto.
Qed.

(** X2.  The metric shows "N/A" for the index exactly when the value is
    [None] or [0]: an index of 0 that was fetched is shown as "N/A" with its
    classification, and a failed fetch as "N/A (N/A)". *)
Theorem X2_zero_index_is_shown_as_na (py_int : value -> result Z)
  (py_str : value -> string) :
  (forall fg_value : option Z,
      value_or_na fg_value = "N/A" <-> fg_value = None \/ fg_value = Some 0)
  /\ (forall c : string,
        fear_greed_metric py_str (Some 0, PStr c)
        = ("N/A (" ++ c ++ ")")%string)
  /\ (forall response : result value,
        fst (fst (get_fear_greed py_int response)) = None ->
        fear_greed_metric py_str (fst (get_fear_greed py_int response))
        = "N/A (N/A)").
Proof.
  split; [|split].
  - intros [z|]; cbn [value_or_na]; split; auto.
    + destruct (Z.eqb_spec z 0) as [->|Hne]; [auto|].
      intros H. now apply decimal_not_na in H.
    + intros [H|H]; [discriminate|]. injection H as ->. reflexivity.
  - intros c. reflexivity.
  - intros response. unfold get_fear_greed.
    destruct (fear_greed_try py_int response) as [e|[v c]]; cbn [fst].
    + reflexivity.
    + discriminate.
Qed.


Lemma social_try_inr (cg alt : result value) (d : list (string * value)) :
  social_try cg alt = inr d <->
  exists cg_data alt_data community inner twitter reddit active score,
    cg = inr cg_data /\ alt = inr alt_data
    /\ getitem cg_data "community_data" = inr community
    /\ getitem community "twitter_followers" = inr twitter
    /\ getitem community "reddit_subscribers" = inr reddit
    /\ getitem community "active_addresses" = inr active
    /\ getitem alt_data "data" = inr inner
    /\ getitem inner "social_score" = inr score
    /\ d = [("twitter_followers", twitter);
            ("reddit_subscribers", reddit);
            ("active_addresses", active);
            ("social_score", score)].
Proof.
  unfold social_try. split.
  - intros H.
    apply bind_inr in H. destruct H as (cg_data & Hcg & H).
    apply bind_inr in H. destruct H as (alt_data & Halt & H).
    apply bind_inr in H. destruct H as (c1 & Hc1 & H).
    apply bind_inr in H. destruct H as (tw & Htw & H).
    apply bind_inr in H. destruct H as (c2 & Hc2 & H).
    apply bind_inr in H. destruct H as (rd & Hrd & H).
    apply bind_inr in H. destruct H as (c3 & Hc3 & H).
    apply bind_inr in H. destruct H as (aa & Haa & H).
    apply bind_inr in H. destruct H as (inner & Hin & H).
    apply bind_inr in H. destruct H as (sc & Hsc & H).
    injection H as <-.
    rewrite Hc1 in Hc2, Hc3. injection Hc2 as <-. injection Hc3 as <-.
    exists cg_data, alt_data, c1, inner, tw, rd, aa, sc.
    repeat split; assumption.
  - intros (cg_data & alt_data & community & inner & tw & rd & aa & sc
            & -> & -> & Hc & Htw & Hrd & Haa & Hin & Hsc & ->).
    cbn [bind]. rewrite Hc. cbn [bind]. rewrite Htw. cbn [bind].
    rewrite Hrd. cbn [bind]. rewrite Haa. cbn [bind]. rewrite Hin.
    cbn [bind]. rewrite Hsc. reflexivity.
Qed.

(** X3.  [get_social_metrics] returns a dict only when both requests
    succeed and all four values are found; the dict then has exactly the
    four keys, in the order written.  Otherwise it shows one error banner
    and returns [None], and [main] writes the "unavailable" warning exactly
    in that case. *)
Theorem X3_social_metrics_all_or_nothing (cg alt : result value) :
  (forall (d : list (string * value)) (events : list ui_event),
      get_social_metrics cg alt = (Some d, events) <->
      events = []
      /\ exists cg_data alt_data community inner twitter reddit active score,
           cg = inr cg_data /\ alt = inr alt_data
           /\ getitem cg_data "community_data" = inr community
           /\ getitem community "twitter_followers" = inr twitter
           /\ getitem community "reddit_subscribers" = inr reddit
           /\ getitem community "active_addresses" = inr active
           /\ getitem alt_data "data" = inr inner
           /\ getitem inner "social_score" = inr score
           /\ d = [("twitter_followers", twitter);
                   ("reddit_subscribers", reddit);
                   ("active_addresses", active);
                   ("social_score", score)])
  /\ ((exists d, get_social_metrics cg alt = (Some d, []))
      \/ (exists e,
            get_social_metrics cg alt
            = (None, [StError "Social Metrics Error: " e])))
  /\ (forall (py_str : value -> string) (float_comma : float -> string),
        fst (get_social_metrics cg alt) = None <->
        social_column py_str float_comma (fst (get_social_metrics cg alt))
        = inr (StWarning "Social metrics unavailable")).
Proof.
  unfold get_social_metrics. split; [|split].
  - intros d events. rewrite <- social_try_inr.
    destruct (social_try cg alt) as [e|d']; split.
    + discriminate.
    + intros [_ H]. discriminate H.
    + intros H. injection H as -> <-. auto.
    + intros [-> H]. injection H as ->. reflexivity.
  - destruct (social_try cg alt) as [e|d]; eauto.
  - intros py_str float_comma.
    destruct (social_try cg alt) as [e|d] eqn:E; cbn [fst]; split;
      try reflexivity; try discriminate.
    apply social_try_inr in E.
    destruct E as (? & ? & ? & ? & ? & ? & ? & ? & _ & _ & _ & _ & _ & _ & _
                   & _ & ->).
    cbn [social_column].
    destruct (social_lines py_str float_comma _); discriminate.
Qed.

Lemma format_comma_cases (float_comma : float -> string) (v : value) :
  (is_number v = true /\ exists text, format_comma float_comma v = inr text)
  \/ (is_number v = false
      /\ exists e, format_comma float_comma v = inl e
                   /\ (e = TypeError \/ e = ValueError)).
Proof.
  destruct v; cbn [format_comma is_number ret raise]; eauto 6.
Qed.

(** X4.  The metric box of a fetched dict is written only when the three
    counts are numbers.  A count that is [None], a string, a list or a dict
    makes the formatting raise [TypeError] or [ValueError], which nothing
    in [main] catches; a null Twitter count raises [TypeError]. *)
Theorem X4_social_box_needs_numbers (py_str : value -> string)
  (float_comma : float -> string) (twitter reddit active score : value) :
  let social_data :=
    [("twitter_followers", twitter); ("reddit_subscribers", reddit);
     ("active_addresses", active); ("social_score", score)] in
  ((exists lines,
       social_column py_str float_comma (Some social_data)
       = inr (StMarkdown lines))
   <-> is_number twitter = true /\ is_number reddit = true
       /\ is_number active = true)
  /\ ((exists e,
         social_column py_str float_comma (Some social_data) = inl e
         /\ (e = TypeError \/ e = ValueError))
      <-> ~ (is_number twitter = true /\ is_number reddit = true
             /\ is_number active = true))
  /\ (twitter = PNone ->
      social_column py_str float_comma (Some social_data) = inl TypeError).
Proof.
  cbv zeta. cbn [social_column].
  assert (Hlines :
    social_lines py_str float_comma
      [("twitter_followers", twitter); ("reddit_subscribers", reddit);
       ("active_addresses", active); ("social_score", score)]
    = (tw <- format_comma float_comma twitter ;;
       rd <- format_comma float_comma reddit ;;
       aa <- format_comma float_comma active ;;
       ret [("🐦 Twitter Followers: " ++ tw)%string;
            ("🎮 Reddit Subscribers: " ++ rd)%string;
            ("📈 Active Addresses: " ++ aa)%string;
            ("📱 Social Score: " ++ format_plain py_str score
             ++ "/100")%string])) by reflexivity.
  rewrite Hlines. clear Hlines.
  split; [|split].
  - destruct (format_comma_cases float_comma twitter)
      as [[Nt [st Ft]]|[Nt [et [Ft Et]]]];
      destruct (format_comma_cases float_comma reddit)
        as [[Nr [sr Fr]]|[Nr [er [Fr Er]]]];
      destruct (format_comma_cases float_comma active)
        as [[Na [sa Fa]]|[Na [ea [Fa Ea]]]];
      rewrite Nt, Nr, Na, Ft, ?Fr, ?Fa; cbn [bind ret]; split;
      try (intros [l H]; discriminate H);
      try (intros (H1 & H2 & H3); discriminate);
      eauto.
  - destruct (format_comma_cases float_comma twitter)
      as [[Nt [st Ft]]|[Nt [et [Ft Et]]]];
      destruct (format_comma_cases float_comma reddit)
        as [[Nr [sr Fr]]|[Nr [er [Fr Er]]]];
      destruct (format_comma_cases float_comma active)
        as [[Na [sa Fa]]|[Na [ea [Fa Ea]]]];
      rewrite Nt, Nr, Na, Ft, ?Fr, ?Fa; cbn [bind ret]; split;
      try (intros [e [H _]]; discriminate H);
      try (intros H; exfalso; apply H; auto; fail);
      try (intros _ (H1 & H2 & H3); discriminate);
      try (intros _; eauto).
  - intros ->. reflexivity.
Qed.


(** X5.  Every timeframe the select box offers has an entry in
    [timeframe_map], so the lookup raises no [KeyError] and the history is
    requested for a positive number of days; any other name would raise
    it. *)
Theorem X5_every_timeframe_has_a_period (timeframe : string) :
  (In timeframe timeframes <->
   exists days,
     history_request timeframe = inr (timeframe, (decimal days ++ "d")%string)
     /\ (0 < days)%Z)
  /\ (~ In timeframe timeframes <-> history_request timeframe = inl KeyError).
Proof.
  unfold history_request, timeframes, timeframe_map.
  cbn [days_of].
  destruct (String.eqb_spec timeframe "15m") as [->|N1];
    [split; split; intros H;
       [exists 3; split; [reflexivity|lia] | cbn [In]; tauto
       | exfalso; apply H; cbn [In]; tauto | discriminate H]|].
  destruct (String.eqb_spec timeframe "1h") as [->|N2];
    [split; split; intros H;
       [exists 7; split; [reflexivity|lia] | cbn [In]; tauto
       | exfalso; apply H; cbn [In]; tauto | discriminate H]|].
  destruct (String.eqb_spec timeframe "4h") as [->|N3];
    [split; split; intros H;
       [exists 14; split; [reflexivity|lia] | cbn [In]; tauto
       | exfalso; apply H; cbn [In]; tauto | discriminate H]|].
  destruct (String.eqb_spec timeframe "1d") as [->|N4];
    [split; split; intros H;
       [exists 30; split; [reflexivity|lia] | cbn [In]; tauto
       | exfalso; apply H; cbn [In]; tauto | discriminate H]|].
  destruct (String.eqb_spec timeframe "1wk") as [->|N5];
    [split; split; intros H;
       [exists 52; split; [reflexivity|lia] | cbn [In]; tauto
       | exfalso; apply H; cbn [In]; tauto | discriminate H]|].
  cbn [bind raise In]. split; split.
  - intros [H|[H|[H|[H|[H|[]]]]]]; congruence.
  - intros [days [H _]]. discriminate H.
  - reflexivity.
  - intros _ [H|[H|[H|[H|[H|[]]]]]]; congruence.
Qed.

Local Open Scope f64_scope.

(** X6.  [get_live_price] raises [IndexError] exactly on an empty history.
    On a non-empty one it returns the last close and its difference from
    the first; with a single bar at a finite non-zero price the change is
    zero and so is the percentage. *)
Theorem X6_live_price_edges (closes : list float) :
  (get_live_price closes = inl IndexError <-> closes = [])
  /\ (closes <> [] ->
      exists first last,
        hd_error closes = Some first
        /\ Pipeline.iloc_last closes = Some last
        /\ get_live_price closes = inr (last, last - first))
  /\ (forall c : float,
        closes = [c] ->
        F64.is_nan c = false -> F64.is_infinity c = false ->
        F64.is_zero c = false ->
        get_live_price closes = inr (c, S754_zero false)
        /\ F64.is_zero (change_percent c (S754_zero false)) = true).
Proof.
  unfold get_live_price. split; [|split].
  - destruct closes as [|c cs]; [simpl; split; reflexivity|].
    destruct (EngineFacts.iloc_last_nonempty (c :: cs)) as [last ->];
      [discriminate|].
    split; discriminate.
  - intros Hne. destruct closes as [|c cs]; [congruence|].
    destruct (EngineFacts.iloc_last_nonempty (c :: cs)) as [last Hlast];
      [discriminate|].
    exists c, last. rewrite Hlast. auto.
  - intros c -> Hn Hi Hz. cbn [Pipeline.iloc_last rev app].
    destruct c as [s|s| |s m e]; try discriminate.
    split.
    + unfold ret. f_equal. f_equal.
      unfold F64.sub, SFsub. rewrite Z.sub_diag. reflexivity.
    + destruct s; reflexivity.
Qed.

Lemma price_sub_sign (x y : float) :
  is_price x = true -> is_price y = true ->
  (x - y >? F64.of_Z 0) = (x >? y)
  /\ (x - y <? F64.of_Z 0) = (x <? y)
  /\ F64.is_zero (x - y) = (x =? y).
Proof.
  unfold is_price, F64.valid. intros Hx Hy.
  apply andb_true_iff in Hx, Hy. destruct Hx as [Hvx Hfx], Hy as [Hvy Hfy].
  change (F64.of_Z 0) with (S754_zero false).
  unfold F64.gtb, F64.ltb, F64.eqb, F64.sub.
  destruct x as [sx|sx| |sx mx ex]; try discriminate Hfx;
    destruct y as [sy|sy| |sy my ey]; try discriminate Hfy.
  - destruct sx, sy; repeat split.
  - destruct sx, sy; repeat split.
  - destruct sx, sy; repeat split.
  - apply (SignFacts.sub_sign F64.prec F64.emax eq_refl); eauto.
Qed.

(** X7.  For prices, the change that [get_live_price] returns has the sign
    of the movement: it is positive exactly when the last close is above
    the first, negative exactly when below, and zero exactly when the two
    are equal. *)
Theorem X7_change_sign_follows_price (closes : list float)
  (first last : float) :
  hd_error closes = Some first ->
  Pipeline.iloc_last closes = Some last ->
  is_price first = true -> is_price last = true ->
  get_live_price closes = inr (last, last - first)
  /\ (last - first >? F64.of_Z 0) = (last >? first)
  /\ (last - first <? F64.of_Z 0) = (last <? first)
  /\ F64.is_zero (last - first) = (last =? first).
Proof.
  intros Hf Hl Hpf Hpl. split; [|now apply price_sub_sign].
  unfold get_live_price. rewrite Hl.
  destruct closes as [|c cs]; [discriminate Hf|].
  injection Hf as ->. reflexivity.
Qed.

Lemma X7_witness :
  (F64.of_Z 97 - F64.of_Z 100 <? F64.of_Z 0) = true.
Proof.
  destruct (X7_change_sign_follows_price ExtraSamples.falling_day
              (F64.of_Z 100) (F64.of_Z 97) eq_refl eq_refl eq_refl eq_refl)
    as (_ & _ & H & _).
  rewrite H. reflexivity.
Defined.

End PageFacts.

(** ** The classifier, further *)

Lemma signal_plus_margin_above (macd signal : float) :
  F64.valid signal = true ->
  (macd >? signal + F64.f1_0) = true -> (macd >? signal) = true.
Proof.
  unfold F64.valid, F64.gtb, F64.add. intros Hv Hgt.
  change F64.f1_0 with (S754_finite false 4503599627370496 (-52)) in *.
  apply MoreRounding.SFltb_le_lt_trans
    with (b := SFadd F64.prec F64.emax signal
                 (S754_finite false 4503599627370496 (-52))).
  - destruct signal; try reflexivity. discriminate Hgt.
  - apply (MoreRounding.add_ge_self F64.prec F64.emax eq_refl). exact Hv.
  - exact Hgt.
Qed.

(** X8.  The RSI advice and the RSI status agree: the "take profits" line
    is written exactly when the status is "Overbought", the "buying
    opportunity" line exactly when it is "Oversold", and neither exactly
    when it is "Neutral". *)
Theorem X8_rsi_status_matches_advice (data : LatestRow) :
  (In advice_overbought (advice (classify data))
   <-> rsiStatus (classify data) = "Overbought 🚨")
  /\ (In advice_oversold (advice (classify data))
      <-> rsiStatus (classify data) = "Oversold 🚨")
  /\ (~ In advice_overbought (advice (classify data))
      /\ ~ In advice_oversold (advice (classify data))
      <-> rsiStatus (classify data) = "Neutral").
Proof.
  cbn [classify advice rsiStatus]. unfold trading_advice, rsi_status.
  rewrite rule_lines_split.
  destruct (rsi_rule_cases (RSI_14 data))
    as [[Er H1]|[[Er [H1 H2]]|[Er [H1 H2]]]];
    rewrite Er, H1, ?H2;
    destruct (macd_rule_cases (MACD_12_26_9 data) (MACDs_12_26_9 data))
      as [[Em _]|[[Em _]|[Em _]]]; rewrite Em;
    destruct (bollinger_rule_cases data) as [[Eb _]|[[Eb _]|[Eb _]]];
    rewrite Eb; cbn [app fallback_rule append];
    repeat split; closed_lines.
Qed.

(** X9.  For a representable signal value the MACD advice never
    contradicts the MACD status: the bullish line is written only with the
    status "Bullish", the bearish line only with "Bearish". *)
Theorem X9_macd_advice_agrees_with_status (data : LatestRow) :
  F64.valid (MACDs_12_26_9 data) = true ->
  (In advice_macd_bullish (advice (classify data)) ->
   macdStatus (classify data) = "Bullish ↗️")
  /\ (In advice_macd_bearish (advice (classify data)) ->
      macdStatus (classify data) = "Bearish ↘️").
Proof.
  intros Hv. cbn [classify advice macdStatus].
  unfold trading_advice, macd_status. rewrite rule_lines_split.
  destruct (macd_rule_cases (MACD_12_26_9 data) (MACDs_12_26_9 data))
    as [[Em H1]|[[Em [H1 H2]]|[Em [H1 H2]]]]; rewrite Em.
  - rewrite (signal_plus_margin_above _ _ Hv H1).
    split; [reflexivity|].
    destruct (rsi_rule_cases (RSI_14 data)) as [[Er _]|[[Er _]|[Er _]]];
      rewrite Er;
      destruct (bollinger_rule_cases data) as [[Eb _]|[[Eb _]|[Eb _]]];
      rewrite Eb; cbn [app fallback_rule append]; closed_lines.
  - destruct (MACD_12_26_9 data >? MACDs_12_26_9 data) eqn:Hgt.
    + rewrite (F64Facts.above_signal_not_below_margin _ _ Hv Hgt) in H2.
      discriminate H2.
    + split; [|reflexivity].
      destruct (rsi_rule_cases (RSI_14 data)) as [[Er _]|[[Er _]|[Er _]]];
        rewrite Er;
        destruct (bollinger_rule_cases data) as [[Eb _]|[[Eb _]|[Eb _]]];
        rewrite Eb; cbn [app fallback_rule append]; closed_lines.
  - destruct (rsi_rule_cases (RSI_14 data)) as [[Er _]|[[Er _]|[Er _]]];
      rewrite Er;
      destruct (bollinger_rule_cases data) as [[Eb _]|[[Eb _]|[Eb _]]];
      rewrite Eb; cbn [app fallback_rule append]; split; closed_lines.
Qed.

Lemma X9_witness :
  macdStatus (classify Samples.all_fire_row) = "Bullish ↗️".
Proof.
  apply (proj1 (X9_macd_advice_agrees_with_status
                  Samples.all_fire_row eq_refl)).
  vm_compute. tauto.
Defined.

(** X10.  Whatever fires, the advice is either the fallback line alone or
    at most one RSI line, then at most one MACD line, then at most one
    Bollinger line, in this order and with at least one of them. *)
Theorem X10_advice_in_rule_order (data : LatestRow) :
  advice (classify data) = [advice_fallback]
  \/ exists r m b : list string,
       advice (classify data) = r ++ m ++ b
       /\ (r = [] \/ r = [advice_overbought] \/ r = [advice_oversold])
       /\ (m = [] \/ m = [advice_macd_bullish] \/ m = [advice_macd_bearish])
       /\ (b = [] \/ b = [advice_above_upper] \/ b = [advice_below_lower])
       /\ r ++ m ++ b <> [].
Proof.
  cbn [classify advice]. unfold trading_advice.
  destruct (rule_lines data) as [|l ls] eqn:E; [now left|right].
  cbn [fallback_rule]. rewrite <- E.
  exists (rsi_rule (RSI_14 data) []),
    (macd_rule (MACD_12_26_9 data) (MACDs_12_26_9 data) []),
    (bollinger_rule data []).
  split; [apply rule_lines_split|].
  split; [destruct (rsi_rule_cases (RSI_14 data)) as [[-> _]|[[-> _]|[-> _]]];
          auto|].
  split; [destruct (macd_rule_cases (MACD_12_26_9 data) (MACDs_12_26_9 data))
            as [[-> _]|[[-> _]|[-> _]]]; auto|].
  split; [destruct (bollinger_rule_cases data) as [[-> _]|[[-> _]|[-> _]]];
          auto|].
  rewrite <- rule_lines_split, E. discriminate.
Qed.

(** X11.  On a row in which no indicator is defined (all are NaN), whatever
    the close, nothing raises and every test is false: the statuses are
    "Neutral", "Bearish", "Normal" and "Bearish", the Bollinger quotient is
    NaN, and the advice is the fallback line alone. *)
Theorem X11_undefined_row_defaults (data : LatestRow) :
  F64.is_nan (RSI_14 data) = true ->
  F64.is_nan (MACD_12_26_9 data) = true ->
  F64.is_nan (MACDs_12_26_9 data) = true ->
  F64.is_nan (SMA_20 data) = true ->
  F64.is_nan (BBL_20_2_0 data) = true ->
  F64.is_nan (BBU_20_2_0 data) = true ->
  classify data =
  {| rsiStatus := "Neutral";
     macdStatus := "Bearish ↘️";
     bollingerPercent := F64.nan;
     bollingerStatus := "Normal";
     trendDirection := "Bearish ↘️";
     advice := [advice_fallback] |}.
Proof.
  destruct data as [close rsi macd signal sma bbl bbu]. cbn [Close RSI_14
    MACD_12_26_9 MACDs_12_26_9 SMA_20 BBL_20_2_0 BBU_20_2_0].
  intros H1 H2 H3 H4 H5 H6.
  apply F64Facts.is_nan_eq in H1, H2, H3, H4, H5, H6. subst.
  unfold classify, trading_advice, rule_lines, rsi_rule, macd_rule,
    bollinger_rule, rsi_status, macd_status, bb_status, bb_percent, bb_width,
    trend.
  cbn [Close RSI_14 MACD_12_26_9 MACDs_12_26_9 SMA_20 BBL_20_2_0 BBU_20_2_0].
  assert (Hgt : forall x, (x >? F64.nan) = false) by reflexivity.
  rewrite !Hgt, !F64Facts.ltb_nan_r, !F64Facts.sub_nan_r.
  replace ((F64.nan / F64.nan)%f64) with F64.nan by reflexivity.
  reflexivity.
Qed.

Lemma X11_witness :
  advice (classify ExtraSamples.undefined_row) = [advice_fallback].
Proof.
  exact (f_equal advice
           (X11_undefined_row_defaults ExtraSamples.undefined_row
              eq_refl eq_refl eq_refl eq_refl eq_refl eq_refl)).
Defined.

(** A quotient of a negative by a positive number is below 0.2. *)
Lemma negative_quotient_is_low (n d : float) :
  (n <? F64.of_Z 0) = true -> (d >? F64.of_Z 0) = true ->
  F64.is_infinity n && F64.is_infinity d = false ->
  bb_status (n / d) = "Low Volatility".
Proof.
  change (F64.of_Z 0) with (S754_zero false).
  unfold F64.ltb, F64.gtb, F64.div, bb_status.
  intros Hn Hd Hinf.
  destruct n as [sn|sn| |sn mn en]; try discriminate Hn;
    destruct sn; try discriminate Hn;
    destruct d as [sd|sd| |sd md ed]; try discriminate Hd;
    destruct sd; try discriminate Hd; try discriminate Hinf;
    try reflexivity.
  pose proof (DivFacts.div_sign F64.prec F64.emax true false mn md en ed) as H.
  cbn [xorb] in H.
  destruct (SFdiv F64.prec F64.emax (S754_finite true mn en)
              (S754_finite false md ed)) as [s|s| |s m e];
    try contradiction; subst s; reflexivity.
Qed.

(** X12.  With proper bands (lower below upper) and prices for close and
    bands, a close below the lower band gets the Bollinger status
    "Low Volatility" together with the "below lower band" advice line,
    unless both differences overflow. *)
Theorem X12_below_lower_band_is_low_volatility (data : LatestRow) :
  Page.is_price (Close data) = true ->
  Page.is_price (BBL_20_2_0 data) = true ->
  Page.is_price (BBU_20_2_0 data) = true ->
  (BBL_20_2_0 data <? BBU_20_2_0 data) = true ->
  (Close data <? BBL_20_2_0 data) = true ->
  F64.is_infinity (Close data - BBL_20_2_0 data)
  && F64.is_infinity (bb_width data) = false ->
  bollingerStatus (classify data) = "Low Volatility"
  /\ In advice_below_lower (advice (classify data)).
Proof.
  intros Hc Hl Hu Hband Hbelow Hinf. split.
  - cbn [classify bollingerStatus]. unfold bb_percent.
    apply negative_quotient_is_low.
    + destruct (PageFacts.price_sub_sign _ _ Hc Hl) as (_ & -> & _).
      exact Hbelow.
    + unfold bb_width.
      destruct (PageFacts.price_sub_sign _ _ Hu Hl) as (-> & _ & _).
      exact Hband.
    + exact Hinf.
  - cbn [classify advice]. apply rule_line_in_advice.
    rewrite rule_lines_split. apply in_or_app. right. apply in_or_app. right.
    assert (Hngt : (Close data >? BBU_20_2_0 data) = false).
    { apply F64Facts.ltb_asym.
      exact (RoundingFacts.SFltb_trans _ _ _ Hbelow Hband). }
    unfold bollinger_rule. rewrite Hngt, Hbelow. now left.
Qed.

Lemma X12_witness :
  bollingerStatus (classify ExtraSamples.below_band_row) = "Low Volatility"
  /\ In advice_below_lower (advice (classify ExtraSamples.below_band_row)).
Proof.
  apply (X12_below_lower_band_is_low_volatility ExtraSamples.below_band_row);
    reflexivity.
Defined.

(** [a < b <= c] gives [a < c], where [b <= c] is read as "not [c < b]"
    for a number [c]. *)
Lemma ltb_lt_le_trans (a b c : float) :
  F64.is_nan c = false ->
  (a <? b) = true -> (c <? b) = false -> (a <? c) = true.
Proof.
  unfold F64.ltb, SFltb.
  destruct a as [sa|sa| |sa ma ea], b as [sb|sb| |sb mb eb],
    c as [sc|sc| |sc mc ec]; cbn [SFcompare F64.is_nan];
    try discriminate; try reflexivity;
    try (destruct sa; try discriminate; try reflexivity);
    try (destruct sb; try discriminate; try reflexivity);
    try (destruct sc; try discriminate; try reflexivity).
  all: change (Pos.compare_cont Eq) with Pos.compare.
  all: intros _.
  all: destruct (Z.compare_spec ea eb); try discriminate;
    destruct (Z.compare_spec ec eb); try discriminate;
    destruct (Z.compare_spec ea ec); try reflexivity; try lia; subst.
  all: destruct (Pos.compare_spec ma mb); try discriminate;
    destruct (Pos.compare_spec mc mb); try discriminate;
    destruct (Pos.compare_spec ma mc); try reflexivity; cbn [CompOpp];
    try discriminate; subst;
    repeat match goal with
           | H : (_ < _)%positive |- _ => apply Pos2Z.pos_lt_pos in H
           end; try lia.
Qed.

(** X13.  When the bands bracket the moving average (the upper band is not
    below SMA20 and the lower band not above it), a breach of a band agrees
    with the trend: the "above upper band" line is written only with the
    trend "Bullish", the "below lower band" line only with "Bearish". *)
Theorem X13_band_breach_agrees_with_trend (data : LatestRow) :
  F64.is_nan (SMA_20 data) = false ->
  (BBU_20_2_0 data <? SMA_20 data) = false ->
  (SMA_20 data <? BBL_20_2_0 data) = false ->
  (In advice_above_upper (advice (classify data)) ->
   trendDirection (classify data) = "Bullish ↗️")
  /\ (In advice_below_lower (advice (classify data)) ->
      trendDirection (classify data) = "Bearish ↘️").
Proof.
  intros Hn Hu Hl. cbn [classify advice trendDirection].
  unfold trading_advice, trend. rewrite rule_lines_split.
  destruct (bollinger_rule_cases data)
    as [[Eb H1]|[[Eb [H1 H2]]|[Eb [H1 H2]]]]; rewrite Eb.
  - assert (Hgt : (Close data >? SMA_20 data) = true).
    { unfold F64.gtb in *.
      apply MoreRounding.SFltb_le_lt_trans with (b := BBU_20_2_0 data);
        assumption. }
    rewrite Hgt. split; [reflexivity|].
    destruct (rsi_rule_cases (RSI_14 data)) as [[Er _]|[[Er _]|[Er _]]];
      rewrite Er;
      destruct (macd_rule_cases (MACD_12_26_9 data) (MACDs_12_26_9 data))
        as [[Em _]|[[Em _]|[Em _]]];
      rewrite Em; cbn [app fallback_rule append]; closed_lines.
  - assert (Hlt : (Close data <? SMA_20 data) = true)
      by (apply ltb_lt_le_trans with (b := BBL_20_2_0 data); assumption).
    apply F64Facts.ltb_asym in Hlt. unfold F64.gtb. unfold F64.ltb in Hlt.
    rewrite Hlt. split; [|reflexivity].
    destruct (rsi_rule_cases (RSI_14 data)) as [[Er _]|[[Er _]|[Er _]]];
      rewrite Er;
      destruct (macd_rule_cases (MACD_12_26_9 data) (MACDs_12_26_9 data))
        as [[Em _]|[[Em _]|[Em _]]];
      rewrite Em; cbn [app fallback_rule append]; closed_lines.
  - destruct (rsi_rule_cases (RSI_14 data)) as [[Er _]|[[Er _]|[Er _]]];
      rewrite Er;
      destruct (macd_rule_cases (MACD_12_26_9 data) (MACDs_12_26_9 data))
        as [[Em _]|[[Em _]|[Em _]]];
      rewrite Em; cbn [app fallback_rule append]; split; closed_lines.
Qed.

Lemma X13_witness :
  trendDirection (classify ExtraSamples.below_band_row) = "Bearish ↘️".
Proof.
  apply (proj2 (X13_band_breach_agrees_with_trend
                  ExtraSamples.below_band_row eq_refl eq_refl eq_refl)).
  vm_compute. tauto.
Defined.
